(** * urknall: the build executor, embedded and verified

    A shallow embedding of the build driver ([Build.Run], [Build.DryRun],
    [prepareBuild], [prepareTarget], [prepareTask], [buildTask],
    [buildChecksumTree], [prepareCommand], [hostname]), of the helpers of
    [utils.go] ([commandChecksum], [executeCommand]) and of [Runlist.Add],
    followed by the properties the specification states about them. *)

From Stdlib Require Import String Ascii List Arith NArith Lia Bool.
From stdpp Require Import base option list strings gmap.
Import ListNotations.

Local Open Scope string_scope.
Set Warnings "-register-all".

(** ** Go strings

    A Go string is a sequence of bytes; [string] (a list of [ascii]) is used
    for it, [String.length] being Go's [len]. *)

Module GoStrings.

Definition chr (n : nat) : string := String (ascii_of_nat n) EmptyString.

Definition dquote : string := chr 34.
Definition newline : string := chr 10.

(** [strings.HasPrefix(s, p)] *)
Definition HasPrefix (s p : string) : bool := String.prefix p s.

(** [strings.HasSuffix(s, suf)]:
    [len(s) >= len(suf) && s[len(s)-len(suf):] == suf] *)
Definition HasSuffix (s suf : string) : bool :=
  (String.length suf <=? String.length s)%nat
  && String.eqb
       (substring (String.length s - String.length suf) (String.length suf) s)
       suf.

(** [strings.TrimPrefix(s, p)] *)
Definition TrimPrefix (s p : string) : string :=
  if HasPrefix s p
  then substring (String.length p) (String.length s - String.length p) s
  else s.

(** [strings.TrimSuffix(s, suf)] *)
Definition TrimSuffix (s suf : string) : string :=
  if HasSuffix s suf
  then substring 0 (String.length s - String.length suf) s
  else s.

(** [strings.Split(s, sep)] for a separator of one byte, the only use the
    build makes of it ([strings.Split(out.String(), "\n")]): the pieces
    between the separators, [n+1] pieces for [n] separators. *)
Fixpoint SplitByte (sep : ascii) (s : string) : list string :=
  match s with
  | EmptyString => [EmptyString]
  | String c rest =>
      if Ascii.eqb c sep then EmptyString :: SplitByte sep rest
      else match SplitByte sep rest with
           | [] => [String c EmptyString]
           | piece :: pieces => String c piece :: pieces
           end
  end.

(** [strings.Join(a, sep)] *)
Fixpoint Join (a : list string) (sep : string) : string :=
  match a with
  | [] => EmptyString
  | [x] => x
  | x :: rest => x ++ sep ++ Join rest sep
  end.

Definition isSlash (c : ascii) : bool := Ascii.eqb c "/"%char.

(** Drops the trailing path separators. *)
Fixpoint stripTrailingSlashes (s : string) : string :=
  match s with
  | EmptyString => EmptyString
  | String c rest =>
      match stripTrailingSlashes rest with
      | EmptyString => if isSlash c then EmptyString else String c EmptyString
      | rest' => String c rest'
      end
  end.

(** The part after the last path separator (the whole string when there is
    none). *)
Fixpoint lastElement (s : string) : string :=
  match s with
  | EmptyString => EmptyString
  | String c rest =>
      if existsb isSlash (list_ascii_of_string rest) then lastElement rest
      else if isSlash c then rest
      else s
  end.

(** [filepath.Base(path)] on Unix: ["."] for the empty path, trailing
    separators stripped, then the last element; ["/"] when nothing is
    left. *)
Definition Base (path : string) : string :=
  match path with
  | EmptyString => "."
  | _ =>
      match lastElement (stripTrailingSlashes path) with
      | EmptyString => "/"
      | e => e
      end
  end.

Definition hexDigit (n : nat) : ascii :=
  match n with
  | 0 => "0" | 1 => "1" | 2 => "2" | 3 => "3" | 4 => "4" | 5 => "5"
  | 6 => "6" | 7 => "7" | 8 => "8" | 9 => "9" | 10 => "a" | 11 => "b"
  | 12 => "c" | 13 => "d" | 14 => "e" | _ => "f"
  end%char.

(** [fmt.Sprintf("%x", b)] for a byte slice [b]: two lowercase
    hexadecimal digits per byte. *)
Fixpoint hex (b : string) : string :=
  match b with
  | EmptyString => EmptyString
  | String c rest =>
      String (hexDigit (nat_of_ascii c / 16))
        (String (hexDigit (nat_of_ascii c mod 16)) (hex rest))
  end.

Definition isLowerHex (c : ascii) : bool :=
  let n := nat_of_ascii c in
  ((48 <=? n) && (n <=? 57) || (97 <=? n) && (n <=? 102))%nat.

End GoStrings.
Import GoStrings.

(** ** SHA-256

    [crypto/sha256] belongs to Go's library.  The driver is verified for any
    digest function; this one (FIPS 180-4, on numbers below [2^32]) is the
    instance the examples are computed with. *)

Module SHA256.

Local Open Scope N_scope.

Definition add32 (a b : N) : N := (a + b) mod 4294967296.

Definition rotr (n x : N) : N :=
  N.lor (N.shiftr x n) (N.shiftl x (32 - n) mod 4294967296).

Definition Ch (x y z : N) : N :=
  N.lxor (N.land x y) (N.land (N.lxor x 4294967295) z).

Definition Maj (x y z : N) : N :=
  N.lxor (N.lxor (N.land x y) (N.land x z)) (N.land y z).

Definition bigSigma0 (x : N) : N :=
  N.lxor (N.lxor (rotr 2 x) (rotr 13 x)) (rotr 22 x).

Definition bigSigma1 (x : N) : N :=
  N.lxor (N.lxor (rotr 6 x) (rotr 11 x)) (rotr 25 x).

Definition smallSigma0 (x : N) : N :=
  N.lxor (N.lxor (rotr 7 x) (rotr 18 x)) (N.shiftr x 3).

Definition smallSigma1 (x : N) : N :=
  N.lxor (N.lxor (rotr 17 x) (rotr 19 x)) (N.shiftr x 10).

(** The round constants: the first 32 bits of the fractional parts of the
    cube roots of the first 64 primes. *)
Definition K : list N :=
  [
    1116352408; 1899447441; 3049323471; 3921009573; 961987163;
    1508970993; 2453635748; 2870763221; 3624381080; 310598401;
    607225278; 1426881987; 1925078388; 2162078206; 2614888103;
    3248222580; 3835390401; 4022224774; 264347078; 604807628;
    770255983; 1249150122; 1555081692; 1996064986; 2554220882;
    2821834349; 2952996808; 3210313671; 3336571891; 3584528711;
    113926993; 338241895; 666307205; 773529912; 1294757372;
    1396182291; 1695183700; 1986661051; 2177026350; 2456956037;
    2730485921; 2820302411; 3259730800; 3345764771; 3516065817;
    3600352804; 4094571909; 275423344; 430227734; 506948616;
    659060556; 883997877; 958139571; 1322822218; 1537002063;
    1747873779; 1955562222; 2024104815; 2227730452; 2361852424;
    2428436474; 2756734187; 3204031479; 3329325298 ].

(** The initial hash value: the first 32 bits of the fractional parts of the
    square roots of the first 8 primes. *)
Definition H0 : list N :=
  [
    1779033703; 3144134277; 1013904242; 2773480762;
    1359893119; 2600822924; 528734635; 1541459225 ].

(** Big-endian bytes of a number, [n] of them. *)
Fixpoint bigEndian (n : nat) (x : N) : list N :=
  match n with
  | O => []
  | S n' => (N.shiftr x (8 * N.of_nat n') mod 256) :: bigEndian n' x
  end.

(** The message, the byte [0x80], zeros up to 56 modulo 64, and the length
    of the message in bits on 8 bytes. *)
Definition pad (msg : list N) : list N :=
  let l := N.of_nat (length msg) in
  (msg ++ [128] ++ repeat 0 (N.to_nat ((119 - l mod 64) mod 64))
   ++ bigEndian 8 (8 * l))%list.

Fixpoint toWords (bytes : list N) : list N :=
  match bytes with
  | a :: b :: c :: d :: rest =>
      (a * 16777216 + b * 65536 + c * 256 + d) :: toWords rest
  | _ => []
  end.

Fixpoint toBlocks (fuel : nat) (words : list N) : list (list N) :=
  match fuel, words with
  | S fuel', _ :: _ => firstn 16 words :: toBlocks fuel' (skipn 16 words)
  | _, _ => []
  end.

Definition w (ws : list N) (t : nat) : N := nth t ws 0.

(** The message schedule: the 16 words of the block, then 48 more. *)
Fixpoint schedule (n : nat) (ws : list N) : list N :=
  match n with
  | O => ws
  | S n' =>
      let t := length ws in
      schedule n'
        (ws ++ [add32 (add32 (smallSigma1 (w ws (t - 2))) (w ws (t - 7)))
                      (add32 (smallSigma0 (w ws (t - 15))) (w ws (t - 16)))])%list
  end.

Definition round (s : list N) (kw : N * N) : list N :=
  match s with
  | [a; b; c; d; e; f; g; h] =>
      let t1 := add32 (add32 (add32 h (bigSigma1 e)) (Ch e f g))
                      (add32 (fst kw) (snd kw)) in
      let t2 := add32 (bigSigma0 a) (Maj a b c) in
      [add32 t1 t2; a; b; c; add32 d t1; e; f; g]
  | _ => s
  end.

Definition compress (h : list N) (block : list N) : list N :=
  map (fun p => add32 (fst p) (snd p))
      (combine h (fold_left round (combine K (schedule 48 block)) h)).

Definition bytesOf (s : string) : list N :=
  map N_of_ascii (list_ascii_of_string s).

Definition stringOf (bytes : list N) : string :=
  string_of_list_ascii (map ascii_of_N bytes).

(** The digest of [s]: 32 bytes. *)
Definition Sum (s : string) : string :=
  let words := toWords (pad (bytesOf s)) in
  stringOf (flat_map (bigEndian 4)
              (fold_left compress (toBlocks (length words) words) H0)).

End SHA256.

(** ** Commands ([cmd.Command])

    [cmd.Command] is the interface [Shell() string]; a command may also
    provide [Checksum() string] and [Logging() string].  A command is
    modelled by what its methods return ([None]: the method is not
    provided). *)

Module cmd.

Record Command : Type := mkCommand {
  Shell : string;
  Checksum : option string;
  Logging : option string
}.

End cmd.

(** ** Errors

    One constructor per place where the driver builds an error with
    [fmt.Errorf]; [ErrExternal] stands for the error values handed over by
    the collaborators (target, template validation, remote task runner). *)

Inductive error : Type :=
| ErrExternal (msg : string)
| ErrUserNotSet
    (* User not set *)
| ErrInitiateUser (user : string) (e : error) (out err : string)
    (* failed to initiate user %q for provisioning: %s, out=%q err=%q *)
| ErrChecksumTree (e : error)
    (* error building checksum tree: %s *)
| ErrCacheKeyEmpty
    (* CacheKey must not be empty *)
| ErrCreateChecksumDir (err : string) (e : error)
    (* err.String() + ": " + e.Error() *)
| ErrTreeRead (e : error) (out err : string)
    (* %s: out=%s err=%s *)
| ErrInvalidChecksum (checksum pkgname : string).
    (* invalid checksum %q found for package %q *)

Inductive result (A : Type) : Type :=
| Ok (a : A)
| Err (e : error).
Arguments Ok {A} a.
Arguments Err {A} e.

(** ** Fingerprints ([utils.go]) *)

Section Checksum.

(** [crypto/sha256]: the digest (32 bytes) of the bytes written to a fresh
    hash. *)
Variable sha256_Sum : string -> string.

(** [commandChecksum]: the command's own [Checksum()] when it provides one,
    else the digest of [Shell()] printed with [%x].  The error branch of the
    source guards [hash.Hash.Write], which never returns an error. *)
Definition commandChecksum (c : cmd.Command) : result string :=
  match cmd.Checksum c with
  | Some custom => Ok custom
  | None => Ok (hex (sha256_Sum (cmd.Shell c)))
  end.

End Checksum.

(** ** Tasks and packages *)

Definition Time : Type := nat.

(** Modelled from the spec: the types of the entries, of the tasks and of
    the package are declared in another file of the repository.  By
    section 3 an entry is (command, cached, checksum, log message), a task
    is (name, ordered entries, started) and a package is the ordered tasks
    with the template they come from.  The driver reads the checksum and the
    log message with the methods [Checksum()] and [LogMsg()] of the entry. *)
Record commandWrapper : Type := mkCommandWrapper {
  command : cmd.Command;
  cached : bool;
  cw_Checksum : string;
  cw_LogMsg : string
}.

Definition setCached (c : commandWrapper) : commandWrapper :=
  {| command := command c; cached := true;
     cw_Checksum := cw_Checksum c; cw_LogMsg := cw_LogMsg c |}.

Record task : Type := mkTask {
  name : string;
  commands : list commandWrapper;
  started : Time
}.

(** [Template]: [Render(pkg)] adds tasks to the package it is given. *)
Record Template : Type := mkTemplate {
  Render : list task -> list task
}.

Record packageImpl : Type := mkPackage {
  reference : Template;
  tasks : list task
}.

(** ** Messages of the bus ([pubsub])

    The keys, the statuses and the fields of a message that the driver
    uses. *)

Inductive MessageKey : Type :=
| MessageRunlistsProvision
| MessageRunlistsProvisionTask.

Inductive ExecStatusT : Type :=
| StatusUnset
| StatusCached
| StatusExecStart
| StatusExecFinished.

Record Message : Type := mkMessage {
  Key : MessageKey;
  Hostname : string;
  TaskName : string;
  TaskChecksum : string;
  MessageText : string;
  ExecStatus : ExecStatusT;
  Error : option error
}.

(** Modelled from the spec: the helper [message(key, hostname, taskName)] is
    defined in another file of the repository; by section 4.6 every message
    carries the hostname and the task name it was created with. *)
Definition message (key : MessageKey) (hostname taskName : string) : Message :=
  {| Key := key; Hostname := hostname; TaskName := taskName;
     TaskChecksum := EmptyString; MessageText := EmptyString;
     ExecStatus := StatusUnset; Error := None |}.

Definition withCommand (m : Message) (c : commandWrapper) : Message :=
  {| Key := Key m; Hostname := Hostname m; TaskName := TaskName m;
     TaskChecksum := cw_Checksum c; MessageText := cw_LogMsg c;
     ExecStatus := ExecStatus m; Error := Error m |}.

Definition withStatus (m : Message) (s : ExecStatusT) : Message :=
  {| Key := Key m; Hostname := Hostname m; TaskName := TaskName m;
     TaskChecksum := TaskChecksum m; MessageText := MessageText m;
     ExecStatus := s; Error := Error m |}.

Definition withError (m : Message) (e : option error) : Message :=
  {| Key := Key m; Hostname := Hostname m; TaskName := TaskName m;
     TaskChecksum := TaskChecksum m; MessageText := MessageText m;
     ExecStatus := ExecStatus m; Error := e |}.

(** ** The target, the build and the effects of a build

    [H] is the state of everything outside the driver: the connection and
    the host behind it.  Each operation of the [Target] interface (and of the
    [ExecCommand] it hands out) is a transition on [H]. *)

Section Driver.

Variable H : Type.

(** [Target]: [User()], [Command(raw)] (which may fail), [Reset()], and
    [String()] when the target is a [fmt.Stringer].  [ExecRun raw] is
    [Run()] of the [ExecCommand] created for [raw]: its error, and what it
    writes to stdout and stderr. *)
Record Target : Type := mkTarget {
  User : string;
  Command : string -> H -> option error * H;
  ExecRun : string -> H -> (option error * string * string) * H;
  Reset : H -> option error * H;
  String_ : option string
}.

Record Build : Type := mkBuild {
  target : Target;
  template : Template;
  Env : list string
}.

Record remoteTaskRunner : Type := mkRunner {
  r_build : Build;
  r_cmd : string;
  r_command : cmd.Command;
  r_dir : string;
  r_taskName : string;
  r_taskStarted : Time
}.

(** What a build does that can be observed from outside, in order.  The
    run of a remote task runner is one event of the driver: it carries the
    runner, the error the run returned and the events of the run itself. *)
Inductive Event : Type :=
| EvCommand (raw : string)                       (* Target.Command(raw) *)
| EvExecRun (raw : string)                       (* ExecCommand.Run() *)
| EvReset                                        (* Target.Reset() *)
| EvPublish (m : Message) (key : string)         (* m.Publish(key) *)
| EvPublishError (m : Message) (e : error)       (* m.PublishError(e) *)
| EvRemoteTask (r : remoteTaskRunner) (e : option error)
    (inner : list Event).                        (* r.run() *)

(** A computation of the driver: from the outside state to a value or an
    error, the new outside state and the events of the computation. *)
Definition M (A : Type) : Type := H -> result A * H * list Event.

Definition ret {A} (a : A) : M A := fun h => (Ok a, h, []).

Definition fail {A} (e : error) : M A := fun h => (Err e, h, []).

Definition bind {A B} (m : M A) (k : A -> M B) : M B :=
  fun h =>
    match m h with
    | (Ok a, h1, ev1) =>
        match k a h1 with
        | (r, h2, ev2) => (r, h2, (ev1 ++ ev2)%list)
        end
    | (Err e, h1, ev1) => (Err e, h1, ev1)
    end.

(** [try m]: the error of [m], if any, as a value ([e := f(); if e != nil]
    with something else than [return e] in the branch). *)
Definition try {A} (m : M A) : M (result A) :=
  fun h => match m h with (r, h1, ev1) => (Ok r, h1, ev1) end.

Definition emit (ev : Event) : M unit := fun h => (Ok tt, h, [ev]).

Notation "'do' x <- m ; k" := (bind m (fun x => k))
  (at level 10, x name, m at level 100, k at level 200).
Notation "'run' m ; k" := (bind m (fun _ => k))
  (at level 10, m at level 100, k at level 200).

(** The driver is parameterised by what it takes from other files of the
    repository and from Go's library. *)

(** The constants [ukGROUP] and [ukCACHEDIR]. *)
Variable ukGROUP : string.
Variable ukCACHEDIR : string.
(** [validateTemplate] *)
Variable validateTemplate : Template -> option error.
(** [remoteTaskRunner.run]: the error it returns, the host afterwards and
    the events of the run. *)
Variable runner_run : remoteTaskRunner -> H -> option error * H * list Event.
(** [time.Now()] *)
Variable Now : H -> Time.
(** [strings.TrimSpace], [filepath.Dir] and the digest of [crypto/sha256]. *)
Variable TrimSpace : string -> string.
Variable Dir : string -> string.
Variable sha256_Sum : string -> string.

(** [renderTemplate] ([utils.go]) *)
Definition renderTemplate (builder : Template) : result packageImpl :=
  match validateTemplate builder with
  | Some e => Err e
  | None => Ok {| reference := builder; tasks := Render builder [] |}
  end.

(** [Build.hostname] *)
Definition hostname (build : Build) : string :=
  match String_ (target build) with
  | Some s => s
  | None => "MISSING"
  end.

Definition sudoPrefix (build : Build) : string :=
  if String.eqb (User (target build)) "root" then EmptyString else "sudo ".

(** [Build.prepareCommand]: the [ExecCommand] is represented by the text it
    was created for. *)
Definition prepareCommand (build : Build) (rawCmd : string) : M string :=
  fun h =>
    let text := sudoPrefix build ++ rawCmd in
    match Command (target build) text h with
    | (Some e, h1) => (Err e, h1, [EvCommand text])
    | (None, h1) => (Ok text, h1, [EvCommand text])
    end.

Definition heredoc (rawCmd : string) : string :=
  "sh -x -e <<" ++ dquote ++ "EOC" ++ dquote ++ newline
  ++ rawCmd ++ newline ++ "EOC" ++ newline.

(** [Build.prepareInternalCommand] *)
Definition prepareInternalCommand (build : Build) (rawCmd : string) : M string :=
  prepareCommand build (heredoc rawCmd).

(** [cmd.Run()] *)
Definition execRun (build : Build) (c : string)
  : M (option error * string * string) :=
  fun h =>
    match ExecRun (target build) c h with
    | (r, h1) => (Ok r, h1, [EvExecRun c])
    end.

(** [build.Reset()] *)
Definition reset (build : Build) : M unit :=
  fun h =>
    match Reset (target build) h with
    | (Some e, h1) => (Err e, h1, [EvReset])
    | (None, h1) => (Ok tt, h1, [EvReset])
    end.

(** The pre-flight check of [prepareTarget]:
    [{ grep "^%s:" /etc/group | grep %s; } && [ -d %[3]s ] && [ -f %[3]s/.v2 ]]
    with [ukGROUP], the user and [ukCACHEDIR]. *)
Definition preflightCheck (user : string) : string :=
  "{ grep " ++ dquote ++ "^" ++ ukGROUP ++ ":" ++ dquote ++ " /etc/group | grep "
  ++ user ++ "; } && [ -d " ++ ukCACHEDIR ++ " ] && [ -f " ++ ukCACHEDIR
  ++ "/.v2 ]".

(** The four repair commands of [prepareTarget]. *)
Definition repairCommands (user : string) : list string :=
  [ "{ grep -e '^" ++ ukGROUP ++ ":' /etc/group > /dev/null || { groupadd "
      ++ ukGROUP ++ "; }; }";
    "{ [ -d " ++ ukCACHEDIR ++ " ] || { mkdir -p -m 2775 " ++ ukCACHEDIR
      ++ " && chgrp " ++ ukGROUP ++ " " ++ ukCACHEDIR ++ "; }; }";
    "usermod -a -G " ++ ukGROUP ++ " " ++ user;
    "[ -f " ++ ukCACHEDIR ++ "/.v2 ] || { export DATE=$(date " ++ dquote
      ++ "+%Y%m%d_%H%M%S" ++ dquote ++ ") && ls " ++ ukCACHEDIR
      ++ " | while read dir; do ls -t " ++ ukCACHEDIR ++ "/$dir/*.done | tac > "
      ++ ukCACHEDIR ++ "/$dir/$DATE.run; done && touch " ++ ukCACHEDIR
      ++ "/.v2;  } " ].

(** [Build.prepareTarget] *)
Definition prepareTarget (build : Build) : M unit :=
  let user := User (target build) in
  if String.eqb user EmptyString then fail ErrUserNotSet
  else
    do c <- prepareInternalCommand build (preflightCheck user);
    do r <- execRun build c;
    match r with
    | (Some _, _, _) =>
        do c2 <- prepareInternalCommand build (Join (repairCommands user) " && ");
        do r2 <- execRun build c2;
        match r2 with
        | (Some e, out, err) => fail (ErrInitiateUser user e out err)
        | (None, _, _) => reset build
        end
    | (None, _, _) => ret tt
    end.

(** The loop of [prepareTask] that finds the commands that need not be
    executed; [i] is the position of the first entry of [cmds] in the task.
    The [break] of the source leaves the [switch] (not the loop), so the loop
    goes on with the next entry. *)
Fixpoint markCached (checksumList : list string) (i : nat)
    (cmds : list commandWrapper) : result (list commandWrapper) :=
  match cmds with
  | [] => Ok []
  | c :: rest =>
      match commandChecksum sha256_Sum (command c) with
      | Err e => Err e
      | Ok checksum =>
          let c' :=
            if (length checksumList <=? i)%nat
               || negb (String.eqb checksum (nth i checksumList EmptyString))
            then c
            else setCached c in
          match markCached checksumList (S i) rest with
          | Err e => Err e
          | Ok rest' => Ok (c' :: rest')
          end
      end
  end.

Definition checksumDirOf (taskName : string) : string :=
  ukCACHEDIR ++ "/" ++ taskName.

(** [Build.prepareTask]; the task is updated in place in the source, the
    updated task is returned here. *)
Definition prepareTask (build : Build) (tsk : task)
    (ct : gmap string (list string)) : M task :=
  let cacheKey := name tsk in
  if String.eqb cacheKey EmptyString then fail ErrCacheKeyEmpty
  else
    let checksumDir := checksumDirOf (name tsk) in
    do checksumList <-
      match ct !! cacheKey with
      | Some l => ret l
      | None =>
          do c <- prepareInternalCommand build ("mkdir -m2775 -p " ++ checksumDir);
          do r <- execRun build c;
          match r with
          | (Some e, _, err) => fail (ErrCreateChecksumDir err e)
          | (None, _, _) => ret []
          end
      end;
    match markCached checksumList 0 (commands tsk) with
    | Err e => fail e
    | Ok cmds' =>
        ret {| name := name tsk; commands := cmds'; started := started tsk |}
    end.

(** The remote read of [buildChecksumTree]. *)
Definition checksumTreeCommand : string :=
  "[ -d " ++ ukCACHEDIR ++ " ] && { ls " ++ ukCACHEDIR
  ++ " | while read dir; do ls -t " ++ ukCACHEDIR
  ++ "/$dir/*.run | head -n1 | xargs cat; done; }".

(** The loop of [buildChecksumTree] over the lines of the output. *)
Fixpoint parseChecksumLines (lines : list string)
    (ct : gmap string (list string)) : result (gmap string (list string)) :=
  match lines with
  | [] => Ok ct
  | l :: rest =>
      let line := TrimSpace l in
      if String.eqb line EmptyString || negb (HasSuffix line ".done")
      then parseChecksumLines rest ct
      else
        let pkgname := Dir (TrimPrefix line (ukCACHEDIR ++ "/")) in
        let checksum := TrimSuffix (Base line) ".done" in
        if negb (String.length checksum =? 64)%nat
        then Err (ErrInvalidChecksum checksum pkgname)
        else
          parseChecksumLines rest
            (<[pkgname := (default [] (ct !! pkgname) ++ [checksum])%list]> ct)
  end.

(** [Build.buildChecksumTree] *)
Definition buildChecksumTree (build : Build) : M (gmap string (list string)) :=
  do c <- prepareInternalCommand build checksumTreeCommand;
  do r <- execRun build c;
  match r with
  | (Some e, out, err) => fail (ErrTreeRead e out err)
  | (None, out, _) =>
      match parseChecksumLines (SplitByte (ascii_of_nat 10) out) ∅ with
      | Err e => fail e
      | Ok ct => ret ct
      end
  end.

(** The loop of [prepareBuild] over the tasks of the package. *)
Fixpoint prepareTasks (build : Build) (tsks : list task)
    (ct : gmap string (list string)) : M (list task) :=
  match tsks with
  | [] => ret []
  | t :: rest =>
      do t' <- prepareTask build t ct;
      do rest' <- prepareTasks build rest ct;
      ret (t' :: rest')
  end.

(** [Build.prepareBuild] *)
Definition prepareBuild (build : Build) : M packageImpl :=
  match renderTemplate (template build) with
  | Err e => fail e
  | Ok pkg =>
      run prepareTarget build;
      do r <- try (buildChecksumTree build);
      match r with
      | Err e => fail (ErrChecksumTree e)
      | Ok ct =>
          do tsks <- prepareTasks build (tasks pkg) ct;
          ret {| reference := reference pkg; tasks := tsks |}
      end
  end.

(** [r.run()] *)
Definition runRemote (r : remoteTaskRunner) : M unit :=
  fun h =>
    match runner_run r h with
    | (Some e, h1, ev) => (Err e, h1, [EvRemoteTask r (Some e) ev])
    | (None, h1, ev) => (Ok tt, h1, [EvRemoteTask r None ev])
    end.

Definition taskMessage (build : Build) (taskName : string)
    (c : commandWrapper) : Message :=
  withCommand (message MessageRunlistsProvisionTask (hostname build) taskName) c.

(** The loop of [buildTask] over the entries of the task. *)
Fixpoint buildCommands (build : Build) (taskName checksumDir : string)
    (taskStarted : Time) (cmds : list commandWrapper) : M unit :=
  match cmds with
  | [] => ret tt
  | c :: rest =>
      let m := taskMessage build taskName c in
      if cached c then
        run emit (EvPublish (withStatus m StatusCached) "finished");
        buildCommands build taskName checksumDir taskStarted rest
      else
        run emit (EvPublish (withStatus m StatusExecStart) "started");
        let r := {| r_build := build; r_cmd := EmptyString;
                    r_command := command c; r_dir := checksumDir;
                    r_taskName := taskName; r_taskStarted := taskStarted |} in
        do e <- try (runRemote r);
        let m' := withError m match e with Err x => Some x | Ok _ => None end in
        run emit (EvPublish (withStatus m' StatusExecFinished) "finished");
        match e with
        | Err x => fail x
        | Ok _ => buildCommands build taskName checksumDir taskStarted rest
        end
  end.

(** [Build.buildTask] *)
Definition buildTask (build : Build) (tsk : task) : M unit :=
  fun h =>
    buildCommands build (name tsk) (checksumDirOf (name tsk)) (Now h)
      (commands tsk) h.

(** The loop of [Run] over the tasks, and what follows it. *)
Fixpoint runTasks (build : Build) (m : Message) (tsks : list task) : M unit :=
  match tsks with
  | [] => emit (EvPublish m "finished")
  | t :: rest =>
      do e <- try (buildTask build t);
      match e with
      | Err x => run emit (EvPublishError m x); fail x
      | Ok _ => runTasks build m rest
      end
  end.

(** [Build.Run] *)
Definition Run (build : Build) : M unit :=
  do pkg <- prepareBuild build;
  let m := message MessageRunlistsProvision (hostname build) EmptyString in
  run emit (EvPublish m "started");
  runTasks build m (tasks pkg).

(** The loops of [DryRun]. *)
Fixpoint dryRunCommands (build : Build) (taskName : string)
    (cmds : list commandWrapper) : M unit :=
  match cmds with
  | [] => ret tt
  | c :: rest =>
      let m := taskMessage build taskName c in
      run (if cached c
           then emit (EvPublish (withStatus m StatusCached) "finished")
           else emit (EvPublish (withStatus m StatusExecStart) "executed"));
      dryRunCommands build taskName rest
  end.

Fixpoint dryRunTasks (build : Build) (tsks : list task) : M unit :=
  match tsks with
  | [] => ret tt
  | t :: rest =>
      run dryRunCommands build (name t) (commands t);
      dryRunTasks build rest
  end.

(** [Build.DryRun] *)
Definition DryRun (build : Build) : M unit :=
  do pkg <- prepareBuild build;
  dryRunTasks build (tasks pkg).

(** The shell text [executeCommand] ([utils.go]) hands to the runner: every
    entry of [Env] is put, with a blank, in front of what is there. *)
Definition envShell (env : list string) (shell : string) : string :=
  fold_left (fun sCmd e => e ++ " " ++ sCmd) env shell.

(** [executeCommand] ([utils.go]) *)
Definition executeCommand (c : cmd.Command) (build : Build)
    (checksumDir taskName : string) : M unit :=
  let sCmd := envShell (Env build) (cmd.Shell c) in
  runRemote {| r_build := build; r_cmd := sCmd; r_command := c;
               r_dir := checksumDir; r_taskName := taskName;
               r_taskStarted := 0 |}.

End Driver.

Arguments User {H} _.
Arguments Command {H} _ _ _.
Arguments ExecRun {H} _ _ _.
Arguments Reset {H} _ _.
Arguments String_ {H} _.
Arguments mkTarget {H} _ _ _ _ _.
Arguments target {H} _.
Arguments template {H} _.
Arguments Env {H} _.
Arguments mkBuild {H} _ _ _.
Arguments r_build {H} _.
Arguments r_cmd {H} _.
Arguments r_command {H} _.
Arguments r_dir {H} _.
Arguments r_taskName {H} _.
Arguments r_taskStarted {H} _.
Arguments mkRunner {H} _ _ _ _ _ _.
Arguments EvCommand {H} _.
Arguments EvExecRun {H} _.
Arguments EvReset {H}.
Arguments EvPublish {H} _ _.
Arguments EvPublishError {H} _ _.
Arguments EvRemoteTask {H} _ _ _.
Arguments hostname {H} _.
Arguments sudoPrefix {H} _.
Arguments prepareCommand {H} _ _ _.
Arguments prepareInternalCommand {H} _ _ _.
Arguments execRun {H} _ _ _.
Arguments reset {H} _ _.
Arguments ret {H A} _ _.
Arguments fail {H A} _ _.
Arguments bind {H A B} _ _ _.
Arguments try {H A} _ _.
Arguments emit {H}.
Arguments prepareTarget {H}.
Arguments prepareTask {H}.
Arguments buildChecksumTree {H}.
Arguments prepareTasks {H}.
Arguments prepareBuild {H}.
Arguments runRemote {H}.
Arguments taskMessage {H}.
Arguments buildCommands {H}.
Arguments buildTask {H}.
Arguments runTasks {H}.
Arguments Run {H}.
Arguments dryRunCommands {H}.
Arguments dryRunTasks {H}.
Arguments DryRun {H}.
Arguments executeCommand {H}.

(** ** Runlists ([runlist.go])

    [Add] takes any Go value and inspects its dynamic type.  Commands added
    by reference are updated in place, so the objects live in a store and a
    pointer is an index into it. *)

Module Runlist.

(** The objects pointers point to: [cmd.ShellCommand] (field [Command]) and
    [cmd.FileCommand] (fields [Path], [Content]). *)
Inductive object : Type :=
| ShellCommand (Command : string)
| FileCommand (Path Content : string).

(** The values [Add] can be given, by dynamic type.  The methods of
    [cmd.ShellCommand] and [cmd.FileCommand] have pointer receivers, so a
    value of these types has no [Shell()] and is not a [cmd.Command] (the
    test of [Add] expects the panic).  [Other] is a value of any other type,
    with the name of the type and whether the type's method set has
    [Shell() string]. *)
Inductive value : Type :=
| PtrShellCommand (p : nat)                       (* *cmd.ShellCommand *)
| PtrFileCommand (p : nat)                        (* *cmd.FileCommand *)
| Str (s : string)                                (* string *)
| ValShellCommand (Command : string)              (* cmd.ShellCommand *)
| ValFileCommand (Path Content : string)          (* cmd.FileCommand *)
| Other (typeName : string) (isCommand : bool).

Definition typeName (v : value) : string :=
  match v with
  | PtrShellCommand _ => "*cmd.ShellCommand"
  | PtrFileCommand _ => "*cmd.FileCommand"
  | Str _ => "string"
  | ValShellCommand _ => "cmd.ShellCommand"
  | ValFileCommand _ _ => "cmd.FileCommand"
  | Other n _ => n
  end.

Inductive panic : Type :=
| PanicTypeNotSupported (typeName : string)   (* type %T not supported! *)
| PanicRender (template : string)             (* of utils.MustRenderTemplate *)
| PanicNilPointer.                            (* dereference of a nil pointer *)

Inductive outcome (A : Type) : Type :=
| Done (a : A)
| Panicked (p : panic).
Arguments Done {A} a.
Arguments Panicked {A} p.

Section Add.

(** The configuration of the package the runlist belongs to. *)
Variable Pkg : Type.

(** [utils.MustRenderTemplate(template, pkg)]: the expanded template, or
    [None] where it panics. *)
Variable MustRenderTemplate : string -> Pkg -> option string.

Record Runlist : Type := mkRunlist {
  commands : list value;
  pkg : Pkg;
  name : string
}.

Definition append (rl : Runlist) (c : value) : Runlist :=
  {| commands := commands rl ++ [c]; pkg := pkg rl; name := name rl |}.

(** The case [*cmd.ShellCommand] of [Add]. *)
Definition addShellCommand (rl : Runlist) (store : list object) (p : nat)
  : outcome (Runlist * list object) :=
  match store !! p with
  | Some (ShellCommand c) =>
      match MustRenderTemplate c (pkg rl) with
      | Some c' =>
          Done (append rl (PtrShellCommand p), <[p := ShellCommand c']> store)
      | None => Panicked (PanicRender c)
      end
  | _ => Panicked PanicNilPointer
  end.

(** The case [*cmd.FileCommand] of [Add]. *)
Definition addFileCommand (rl : Runlist) (store : list object) (p : nat)
  : outcome (Runlist * list object) :=
  match store !! p with
  | Some (FileCommand path content) =>
      match MustRenderTemplate content (pkg rl) with
      | Some content' =>
          Done (append rl (PtrFileCommand p),
                <[p := FileCommand path content']> store)
      | None => Panicked (PanicRender content)
      end
  | _ => Panicked PanicNilPointer
  end.

(** [Runlist.Add].  The case [string] of the source calls [Add] again with
    [&cmd.ShellCommand{Command: t}], which the case [*cmd.ShellCommand]
    takes: the new object is put at the end of the store. *)
Definition Add (rl : Runlist) (store : list object) (c : value)
  : outcome (Runlist * list object) :=
  match c with
  | PtrShellCommand p => addShellCommand rl store p
  | PtrFileCommand p => addFileCommand rl store p
  | Other _ true => Done (append rl c, store)
  | Str t => addShellCommand rl (store ++ [ShellCommand t]) (length store)
  | _ => Panicked (PanicTypeNotSupported (typeName c))
  end.

End Add.

End Runlist.

(** ** The remote task runner of the specification *)

Section SpecRunner.

Variable H : Type.

(** What the runner leaves in the cache directory of the host: for the
    directory, the checksum, the error of the command and its captured
    output, the host afterwards. *)
Variable recordOutcome : string -> string -> option error -> string -> H -> H.
Variable sha256_Sum : string -> string.

(** Modelled from the spec: the final shell text of section 4.5, step 2,
    [<env K=V ...> <sudo?> <command.shell()>]; each entry of the build's
    [env] list is a prefix of the invocation (section 6). *)
Definition finalShellText (r : remoteTaskRunner H) : string :=
  fold_right (fun e rest => e ++ " " ++ rest)
    (sudoPrefix (r_build r) ++ cmd.Shell (r_command r))
    (Env (r_build r)).

(** Modelled from the spec: [remoteTaskRunner.run] is defined in another
    file of the repository.  By section 4.5 it builds the final shell text, starts
    the command on the target and captures its output; it records the
    success ([.log], [.done], [.run]) or the failure ([.failed.log]) in the
    cache directory of the task and returns the error of the command. *)
Definition specRunner (r : remoteTaskRunner H)
  : H -> option error * H * list (Event H) :=
  fun h =>
    let text := finalShellText r in
    let t := target (r_build r) in
    match Command t text h with
    | (Some e, h1) => (Some e, h1, [EvCommand text])
    | (None, h1) =>
        match ExecRun t text h1 with
        | ((e, out, err), h2) =>
            let checksum :=
              match commandChecksum sha256_Sum (r_command r) with
              | Ok c => c
              | Err _ => EmptyString
              end in
            (e, recordOutcome (r_dir r) checksum e (out ++ err) h2,
             [EvCommand text; EvExecRun text])
        end
    end.

End SpecRunner.

(** ** Collaborators for the examples *)

Module Sim.

(** A host that answers the runs of its commands from a script: one answer
    (error, stdout, stderr) per run, success with no output when the script
    is over. *)
Definition Host : Type := list (option error * string * string).

Definition scripted (user : string) (stringer : option string) : Target Host :=
  {| User := user;
     Command := fun _ h => (None, h);
     ExecRun := fun _ h =>
       match h with
       | answer :: rest => (answer, rest)
       | [] => ((None, EmptyString, EmptyString), [])
       end;
     Reset := fun h => (None, h);
     String_ := stringer |}.

(** A runner that fails on the command [exit 2] and touches nothing. *)
Definition runner (r : remoteTaskRunner Host)
  : Host -> option error * Host * list (Event Host) :=
  fun h =>
    (if String.eqb (cmd.Shell (r_command r)) "exit 2"
     then Some (ErrExternal "exit status 2") else None, h, []).

Definition isAsciiSpace (c : ascii) : bool :=
  match nat_of_ascii c with
  | 9 | 10 | 11 | 12 | 13 | 32 => true
  | _ => false
  end.

Fixpoint trimLeft (s : string) : string :=
  match s with
  | EmptyString => EmptyString
  | String c rest => if isAsciiSpace c then trimLeft rest else s
  end.

Fixpoint trimRight (s : string) : string :=
  match s with
  | EmptyString => EmptyString
  | String c rest =>
      match trimRight rest with
      | EmptyString => if isAsciiSpace c then EmptyString else String c EmptyString
      | rest' => String c rest'
      end
  end.

(** [strings.TrimSpace] on strings of ASCII characters. *)
Definition TrimSpace (s : string) : string := trimRight (trimLeft s).

Fixpoint beforeLastSlash (s : string) : string :=
  match s with
  | EmptyString => EmptyString
  | String c rest =>
      if existsb isSlash (list_ascii_of_string rest)
      then String c (beforeLastSlash rest)
      else EmptyString
  end.

(** [filepath.Dir] on the relative paths [task/checksum.done] of a [.run]
    file (no [.], [..] or repeated separator to clean). *)
Definition Dir (path : string) : string :=
  match beforeLastSlash path with
  | EmptyString => "."
  | d => d
  end.

Definition ukGROUP : string := "urknall".
Definition ukCACHEDIR : string := "/var/lib/urknall".

Definition noValidation (t : Template) : option error := None.

Definition clock (h : Host) : Time := 0.

Definition shell (s : string) : cmd.Command :=
  {| cmd.Shell := s; cmd.Checksum := None; cmd.Logging := None |}.

Definition entry (s : string) : commandWrapper :=
  {| command := shell s; cached := false;
     cw_Checksum := hex (SHA256.Sum s); cw_LogMsg := s |}.

(** The template of the scenarios: one task [base]. *)
Definition templateOf (shells : list string) : Template :=
  {| Render := fun tsks =>
       (tsks ++ [ {| name := "base"; commands := map entry shells;
                     started := 0 |} ])%list |}.

Definition build (user : string) (shells : list string) (env : list string)
  : Build Host :=
  {| target := scripted user (Some "host.example");
     template := templateOf shells;
     Env := env |}.

(** The cache of the host after a run of [echo hello], [echo middle],
    [echo world] for the task [base]. *)
Definition cachedTree : gmap string (list string) :=
  {[ "base" := [ hex (SHA256.Sum "echo hello");
                 hex (SHA256.Sum "echo middle");
                 hex (SHA256.Sum "echo world") ] ]}.

Definition changedTask : task :=
  {| name := "base";
     commands := map entry ["echo hello"; "echo changed"; "echo world"];
     started := 0 |}.

(** The package of the test of [Add] and a renderer for it: the fields
    [SField] and [IField] are expanded, any other [{{] is an error. *)
Record somePackage : Type := mkSomePackage {
  SField : string;
  IField : string
}.

Fixpoint replaceAll (pat rep : string) (skip : nat) (s : string) : string :=
  match s with
  | EmptyString => EmptyString
  | String c rest =>
      match skip with
      | S k => replaceAll pat rep k rest
      | O =>
          if String.prefix pat s
          then rep ++ replaceAll pat rep (String.length pat - 1) rest
          else String c (replaceAll pat rep 0 rest)
      end
  end.

Fixpoint contains (pat : string) (s : string) : bool :=
  match s with
  | EmptyString => String.prefix pat EmptyString
  | String _ rest => String.prefix pat s || contains pat rest
  end.

Definition render (template : string) (p : somePackage) : option string :=
  let expanded :=
    replaceAll "{{ .IField }}" (IField p) 0
      (replaceAll "{{ .SField }}" (SField p) 0 template) in
  if contains "{{" expanded then None else Some expanded.

End Sim.

(** ** What is observed of a build *)

Section Observations.

Context {H : Type}.

Definition outcomeOf {A} (x : result A * H * list (Event H)) : result A :=
  fst (fst x).
Definition eventsOf {A} (x : result A * H * list (Event H)) : list (Event H) :=
  snd x.

(** The runs of the remote task runner among the events, with the error
    each returned. *)
Fixpoint remoteRuns (evs : list (Event H))
  : list (remoteTaskRunner H * option error) :=
  match evs with
  | [] => []
  | EvRemoteTask r e _ :: rest => (r, e) :: remoteRuns rest
  | _ :: rest => remoteRuns rest
  end.

Definition runKey (x : remoteTaskRunner H * option error)
  : string * cmd.Command :=
  (r_taskName (fst x), r_command (fst x)).

(** The commands a run has to execute: task by task, the commands of the
    entries that are not cached. *)
Definition pendingOf (t : task) : list (string * cmd.Command) :=
  map (fun c => (name t, command c))
      (List.filter (fun c => negb (cached c)) (commands t)).

Definition pending (tsks : list task) : list (string * cmd.Command) :=
  flat_map pendingOf tsks.

(** An event the driver itself sends to the target for one of its internal
    commands: the text is the heredoc of some command, after the sudo
    prefix. *)
Definition internalOnly (build : Build H) (ev : Event H) : Prop :=
  match ev with
  | EvCommand text | EvExecRun text =>
      exists raw, text = sudoPrefix build ++ heredoc raw
  | EvReset => True
  | _ => False
  end.

(** The check is run again after the transport was reset. *)
Definition retriedAfterReset (check : string) (evs : list (Event H)) : Prop :=
  exists before after,
    evs = (before ++ EvReset :: after)%list /\ In (EvExecRun check) after.

(** [yields P Q m]: every event of [m] satisfies [P], and the value of [m],
    when there is one, satisfies [Q]. *)
Definition yields {A} (P : Event H -> Prop) (Q : A -> Prop) (m : M H A) : Prop :=
  forall h,
    Forall P (eventsOf (m h))
    /\ forall a, outcomeOf (m h) = Ok a -> Q a.

(** What the driver does during a build: internal commands, messages with
    the hostname of the build, and runs of the remote task runner for the
    build, whose own events satisfy [inner]. *)
Definition driverEvent (build : Build H)
    (inner : remoteTaskRunner H -> list (Event H) -> Prop) (ev : Event H) : Prop :=
  match ev with
  | EvCommand text | EvExecRun text =>
      exists raw, text = sudoPrefix build ++ heredoc raw
  | EvReset => True
  | EvPublish m _ | EvPublishError m _ => Hostname m = hostname build
  | EvRemoteTask r _ evs => r_build r = build /\ inner r evs
  end.

(** The runs of the remote task runner against the commands that were to
    be executed: the runs are the commands [todo] in order, up to the first
    one that returns an error; that error is the result; without an error
    every command of [todo] was run. *)
Definition stopsAtFirstError (res : result unit)
    (runs : list (remoteTaskRunner H * option error))
    (todo : list (string * cmd.Command)) : Prop :=
  exists rest,
    todo = (map runKey runs ++ rest)%list
    /\ match res with
       | Ok _ => rest = [] /\ Forall (fun x => snd x = None) runs
       | Err e =>
           exists runs0 r,
             runs = (runs0 ++ [(r, Some e)])%list
             /\ Forall (fun x => snd x = None) runs0
       end.

End Observations.

Section Fingerprint.

Variable sha256_Sum : string -> string.

(** The fingerprint of a command, as the specification words it: the custom
    checksum, or the SHA-256 of the shell string in lowercase hexadecimal. *)
Definition fingerprint (c : cmd.Command) : string :=
  match cmd.Checksum c with
  | Some custom => custom
  | None => hex (sha256_Sum (cmd.Shell c))
  end.

(** Whether the entry at position [i] matches the cached list. *)
Definition matchesAt (checksumList : list string) (i : nat)
    (c : commandWrapper) : bool :=
  match checksumList !! i with
  | Some x => String.eqb (fingerprint (command c)) x
  | None => false
  end.

(** The diff with the streak broken at the first mismatch, as the
    specification words it: once an entry does not match, no later entry of
    the task is marked. *)
Fixpoint markCachedStreak (checksumList : list string) (i : nat)
    (cmds : list commandWrapper) : list commandWrapper :=
  match cmds with
  | [] => []
  | c :: rest =>
      if matchesAt checksumList i c
      then setCached c :: markCachedStreak checksumList (S i) rest
      else cmds
  end.

End Fingerprint.

(** A line of the remote read that is not blank, ends in [.done] and whose
    checksum (the base name without [.done]) has not 64 characters. *)
Definition corruptLine (TrimSpace : string -> string) (l : string) : bool :=
  let line := TrimSpace l in
  negb (String.eqb line EmptyString)
  && HasSuffix line ".done"
  && negb (String.length (TrimSuffix (Base line) ".done") =? 64)%nat.

(** ** The shortcuts of the package

    [Run(target, tpl)] and [DryRun(target, tpl)] create a build from the
    target and the template, with no environment, and run it. *)

Section Shortcuts.

Context {H : Type}.
Variables ukGROUP ukCACHEDIR : string.
Variable validateTemplate : Template -> option error.
Variable runner_run : remoteTaskRunner H -> H -> option error * H * list (Event H).
Variable Now : H -> Time.
Variables TrimSpace Dir sha256_Sum : string -> string.

(** [Run(target, tpl)] *)
Definition urknall_Run (tgt : Target H) (tpl : Template) : M H unit :=
  Run ukGROUP ukCACHEDIR validateTemplate runner_run Now TrimSpace Dir
    sha256_Sum {| target := tgt; template := tpl; Env := [] |}.

(** [DryRun(target, tpl)] *)
Definition urknall_DryRun (tgt : Target H) (tpl : Template) : M H unit :=
  DryRun ukGROUP ukCACHEDIR validateTemplate TrimSpace Dir sha256_Sum
    {| target := tgt; template := tpl; Env := [] |}.

End Shortcuts.

(** ** The lines of the remote read, one by one *)

Section Markers.

Variable ukCACHEDIR : string.
Variables TrimSpace Dir : string -> string.

(** What one line of the read contributes to the tree: nothing for a line
    that is skipped, else the name of the task and the checksum (whatever its
    length). *)
Definition markerEntry (l : string) : option (string * string) :=
  let line := TrimSpace l in
  if String.eqb line EmptyString || negb (HasSuffix line ".done") then None
  else Some (Dir (TrimPrefix line (ukCACHEDIR ++ "/")),
             TrimSuffix (Base line) ".done").

Definition markerEntries (lines : list string) : list (string * string) :=
  flat_map (fun l => match markerEntry l with
                     | Some e => [e]
                     | None => []
                     end) lines.

(** The checksums of the task [k] among the entries, in their order. *)
Definition checksumsOf (k : string) (entries : list (string * string))
  : list string :=
  map snd (List.filter (fun e => String.eqb (fst e) k) entries).

End Markers.

(** A tree in which every task has a list of checksums that is not empty
    and holds only checksums of 64 characters. *)
Definition wellFormedTree (ct : gmap string (list string)) : Prop :=
  forall k l, ct !! k = Some l ->
    l <> [] /\ Forall (fun c => String.length c = 64) l.

(** The value of a hexadecimal digit ([16] when it is none). *)
Definition unhexDigit (c : ascii) : nat :=
  let n := nat_of_ascii c in
  if ((48 <=? n) && (n <=? 57))%nat then n - 48
  else if ((97 <=? n) && (n <=? 102))%nat then n - 87
  else 16.

(** The message [DryRun] publishes for an entry, with its key. *)
Definition dryRunEvent {H : Type} (build : Build H) (taskName : string)
    (c : commandWrapper) : Event H :=
  if cached c
  then EvPublish (withStatus (taskMessage build taskName c) StatusCached)
         "finished"
  else EvPublish (withStatus (taskMessage build taskName c) StatusExecStart)
         "executed".

(** * Properties *)

(** ** The string functions on examples *)

Example SplitByte_lines :
  SplitByte (ascii_of_nat 10) ("a" ++ newline ++ newline ++ "bc" ++ newline)
  = ["a"; EmptyString; "bc"; EmptyString].
Proof. reflexivity. Qed.

Example Base_done : Base "/var/lib/urknall/base/abc.done" = "abc.done".
Proof. reflexivity. Qed.

Example Base_slashes : Base "///" = "/" /\ Base "a/b//" = "b" /\ Base "x" = "x".
Proof. repeat split; reflexivity. Qed.

Example TrimSuffix_done :
  TrimSuffix "abc.done" ".done" = "abc" /\ TrimSuffix "abc.log" ".done" = "abc.log".
Proof. split; reflexivity. Qed.

Example hex_bytes : hex (chr 0 ++ chr 171 ++ chr 255) = "00abff".
Proof. reflexivity. Qed.

Example Sim_TrimSpace : Sim.TrimSpace ("  a b " ++ newline) = "a b".
Proof. reflexivity. Qed.

Example Sim_Dir : Sim.Dir "base/abc.done" = "base" /\ Sim.Dir "abc.done" = ".".
Proof. split; reflexivity. Qed.

(** ** Hexadecimal printing and the digest *)

Lemma hexDigit_lower (n : nat) : isLowerHex (hexDigit n) = true.
Proof.
  do 16 (destruct n as [|n]; [reflexivity|]). reflexivity.
Qed.

Lemma hex_length (b : string) : String.length (hex b) = 2 * String.length b.
Proof.
  induction b as [|c b IH]; simpl; [reflexivity|]. rewrite IH. lia.
Qed.

Lemma hex_lower (b : string) :
  forallb isLowerHex (list_ascii_of_string (hex b)) = true.
Proof.
  induction b as [|c b IH]; simpl; [reflexivity|].
  rewrite !hexDigit_lower, IH. reflexivity.
Qed.

Example SHA256_abc :
  hex (SHA256.Sum "abc")
  = "ba7816bf8f01cfea414140de5dae2223b00361a396177a9cb410ff61f20015ad".
Proof. vm_compute. reflexivity. Qed.

Example SHA256_empty :
  hex (SHA256.Sum EmptyString)
  = "e3b0c44298fc1c149afbf4c8996fb92427ae41e4649b934ca495991b7852b855".
Proof. vm_compute. reflexivity. Qed.

Lemma SHA256_round_length s kw : length (SHA256.round s kw) = length s.
Proof.
  unfold SHA256.round.
  do 8 (destruct s as [|? s]; [reflexivity|]).
  destruct s; reflexivity.
Qed.

Lemma SHA256_rounds_length kws s :
  length (fold_left SHA256.round kws s) = length s.
Proof.
  revert s. induction kws as [|kw kws IH]; intros s; simpl; [reflexivity|].
  rewrite IH. apply SHA256_round_length.
Qed.

Lemma SHA256_compress_length h block :
  length (SHA256.compress h block) = length h.
Proof.
  unfold SHA256.compress.
  rewrite length_map, length_combine, SHA256_rounds_length. lia.
Qed.

Lemma SHA256_blocks_length blocks h :
  length (fold_left SHA256.compress blocks h) = length h.
Proof.
  revert h. induction blocks as [|b blocks IH]; intros h; simpl; [reflexivity|].
  rewrite IH. apply SHA256_compress_length.
Qed.

Lemma SHA256_bigEndian_length n x : length (SHA256.bigEndian n x) = n.
Proof. induction n as [|n IH]; simpl; [reflexivity|]. now rewrite IH. Qed.

Lemma SHA256_flat_length (ws : list N) :
  length (flat_map (SHA256.bigEndian 4) ws) = 4 * length ws.
Proof.
  induction ws as [|x ws IH]; [reflexivity|].
  change (flat_map (SHA256.bigEndian 4) (x :: ws))
    with (SHA256.bigEndian 4 x ++ flat_map (SHA256.bigEndian 4) ws)%list.
  rewrite length_app, SHA256_bigEndian_length, IH. simpl. lia.
Qed.

Lemma string_of_list_ascii_length (l : list ascii) :
  String.length (string_of_list_ascii l) = length l.
Proof. induction l as [|c l IH]; simpl; [reflexivity|]. now rewrite IH. Qed.

(** The digest has 32 bytes, so its fingerprint has 64 characters. *)
Lemma SHA256_Sum_length (s : string) : String.length (SHA256.Sum s) = 32.
Proof.
  unfold SHA256.Sum, SHA256.stringOf.
  rewrite string_of_list_ascii_length, length_map, SHA256_flat_length,
    SHA256_blocks_length.
  reflexivity.
Qed.

(** ** C2: the fingerprint of a command *)

(** C2.  The fingerprint of a command is its own [Checksum()], verbatim,
    when the command provides one; otherwise it is the SHA-256 digest of the
    string [Shell()] returns, printed in lowercase hexadecimal digits, two
    per byte of the digest. *)
Theorem commandChecksum_fingerprint
    (sha256_Sum : string -> string) (shell : string) (logging : option string) :
  (forall custom,
      commandChecksum sha256_Sum (cmd.mkCommand shell (Some custom) logging)
      = Ok custom)
  /\ commandChecksum sha256_Sum (cmd.mkCommand shell None logging)
     = Ok (hex (sha256_Sum shell))
  /\ String.length (hex (sha256_Sum shell)) = 2 * String.length (sha256_Sum shell)
  /\ forallb isLowerHex (list_ascii_of_string (hex (sha256_Sum shell))) = true.
Proof.
  split; [intros custom; reflexivity|].
  split; [reflexivity|].
  split; [apply hex_length | apply hex_lower].
Qed.

(** With the digest of [crypto/sha256] the fingerprint has 64 characters. *)
Lemma commandChecksum_SHA256_length (shell : string) (logging : option string) :
  exists fp,
    commandChecksum SHA256.Sum (cmd.mkCommand shell None logging) = Ok fp
    /\ String.length fp = 64.
Proof.
  exists (hex (SHA256.Sum shell)). split; [reflexivity|].
  rewrite hex_length, SHA256_Sum_length. reflexivity.
Qed.

Example commandChecksum_echo_hello :
  commandChecksum SHA256.Sum (Sim.shell "echo hello")
  = Ok "584a331fd6b02dcb1ecbe2eba731f609a2e1e3dac0bb73ae998dfad14c309a77".
Proof. vm_compute. reflexivity. Qed.

(** ** The diff of a task against its cached checksum list *)

Section Diff.

Variable sha256_Sum : string -> string.

Lemma commandChecksum_total (c : cmd.Command) :
  commandChecksum sha256_Sum c = Ok (fingerprint sha256_Sum c).
Proof.
  unfold commandChecksum, fingerprint. destruct (cmd.Checksum c); reflexivity.
Qed.

Lemma markCached_guard (checksumList : list string) (i : nat) (c : commandWrapper) :
  ((length checksumList <=? i)%nat
   || negb (String.eqb (fingerprint sha256_Sum (command c)) (nth i checksumList EmptyString)))
  = negb (matchesAt sha256_Sum checksumList i c).
Proof.
  unfold matchesAt.
  destruct (Nat.leb_spec (length checksumList) i) as [Hle|Hlt]; simpl.
  - rewrite (lookup_ge_None_2 checksumList i Hle). reflexivity.
  - destruct (lookup_lt_is_Some_2 checksumList i Hlt) as [x Hx].
    rewrite Hx. erewrite nth_lookup_Some by exact Hx. reflexivity.
Qed.

(** The loop never fails and decides each position on its own. *)
Lemma markCached_positional (checksumList : list string) (cmds : list commandWrapper)
    (i : nat) :
  markCached sha256_Sum checksumList i cmds
  = Ok (imap (fun j c => if matchesAt sha256_Sum checksumList (i + j) c
                         then setCached c else c) cmds).
Proof.
  revert i. induction cmds as [|c cmds IH]; intros i; simpl; [reflexivity|].
  rewrite commandChecksum_total, markCached_guard, IH.
  rewrite Nat.add_0_r.
  destruct (matchesAt sha256_Sum checksumList i c); simpl; do 2 f_equal;
    apply imap_ext; intros j x _; simpl;
    replace (i + S j) with (S i + j) by lia; reflexivity.
Qed.

(** An entry that was not cached before the diff is cached after it exactly
    when its position is inside the cached list and the list has the
    entry's fingerprint there. *)
Lemma markCached_cached_iff (checksumList : list string)
    (cmds cmds' : list commandWrapper) (j : nat) (c : commandWrapper) :
  markCached sha256_Sum checksumList 0 cmds = Ok cmds' ->
  cmds !! j = Some c ->
  cached c = false ->
  exists c', cmds' !! j = Some c'
    /\ command c' = command c
    /\ (cached c' = true <->
        (j < length checksumList
         /\ checksumList !! j = Some (fingerprint sha256_Sum (command c)))).
Proof.
  intros Hm Hj Hc. rewrite markCached_positional in Hm.
  injection Hm as <-.
  eexists. split.
  - rewrite list_lookup_imap, Hj. reflexivity.
  - simpl. unfold matchesAt.
    destruct (checksumList !! j) as [x|] eqn:Hx.
    + pose proof (lookup_lt_Some _ _ _ Hx) as Hlt.
      destruct (String.eqb_spec (fingerprint sha256_Sum (command c)) x) as [->|Hne]; simpl.
      * split; [reflexivity|]. split; [intros _; split; [exact Hlt|reflexivity]|reflexivity].
      * split; [reflexivity|]. rewrite Hc. split; [discriminate|].
        intros [_ Heq]. congruence.
    + split; [reflexivity|]. rewrite Hc. split; [discriminate|].
      intros [_ Heq]. discriminate.
Qed.

End Diff.

(** ** C1: the streak of cached commands *)

(** C1.  The code at a task whose second command changed since the cached
    run ([echo hello], [echo changed], [echo world] against the cached list
    of [echo hello], [echo middle], [echo world]): the first command is
    cached, the second does not match and is not cached, and the third,
    which comes after the mismatch, is marked cached all the same; the diff
    that breaks the streak at the first mismatch leaves it non-cached. *)
Theorem prepareTask_marks_after_mismatch :
  let b := Sim.build "root" ["echo hello"; "echo changed"; "echo world"] [] in
  (exists t',
      prepareTask Sim.ukCACHEDIR SHA256.Sum b Sim.changedTask Sim.cachedTree []
      = (Ok t', [], [])
      /\ map cached (commands t') = [true; false; true])
  /\ map cached
       (markCachedStreak SHA256.Sum
          (default [] (Sim.cachedTree !! "base")) 0 (commands Sim.changedTask))
     = [true; false; false].
Proof.
  split.
  - eexists. split; [vm_compute; reflexivity|]. reflexivity.
  - vm_compute. reflexivity.
Qed.

(** ** Reasoning about the computations of the driver *)

Section Yields.

Context {H : Type}.
Implicit Types P : Event H -> Prop.

Lemma yields_ret {A} P (Q : A -> Prop) (a : A) : Q a -> yields P Q (ret a).
Proof.
  intros Hq h. split; [constructor|].
  intros a' Ha. injection Ha as <-. exact Hq.
Qed.

Lemma yields_fail {A} P (Q : A -> Prop) (e : error) : yields P Q (fail e).
Proof. intros h. split; [constructor|]. intros a Ha. discriminate Ha. Qed.

Lemma yields_emit P (Q : unit -> Prop) (ev : Event H) :
  P ev -> Q tt -> yields P Q (emit ev).
Proof.
  intros Hp Hq h. split; [repeat constructor; exact Hp|].
  intros [] _. exact Hq.
Qed.

Lemma yields_bind {A B} P (Q : A -> Prop) (R : B -> Prop)
    (m : M H A) (k : A -> M H B) :
  yields P Q m ->
  (forall a, Q a -> yields P R (k a)) ->
  yields P R (bind m k).
Proof.
  intros Hm Hk h. unfold bind.
  destruct (Hm h) as [Hev Hval].
  destruct (m h) as [[[a|e] h1] ev1]; simpl in *.
  - destruct (Hk a (Hval a eq_refl) h1) as [Hev2 Hval2].
    destruct (k a h1) as [[r h2] ev2]; simpl in *.
    split; [apply Forall_app; split; assumption | exact Hval2].
  - split; [exact Hev|]. intros b Hb. discriminate Hb.
Qed.

Lemma yields_try {A} P (Q : A -> Prop) (m : M H A) :
  yields P Q m ->
  yields P (fun r => match r with Ok a => Q a | Err _ => True end) (try m).
Proof.
  intros Hm h. unfold try. destruct (Hm h) as [Hev Hval].
  destruct (m h) as [[r h1] ev1]; simpl in *.
  split; [exact Hev|]. intros r' Hr. injection Hr as <-.
  destruct r as [a|e]; [apply Hval; reflexivity | exact I].
Qed.

Lemma yields_weaken {A} P P' (Q Q' : A -> Prop) (m : M H A) :
  (forall ev, P ev -> P' ev) -> (forall a, Q a -> Q' a) ->
  yields P Q m -> yields P' Q' m.
Proof.
  intros Hp Hq Hm h. destruct (Hm h) as [Hev Hval].
  split; [eapply Forall_impl; eassumption | intros a Ha; auto].
Qed.

End Yields.

(** ** The internal commands of the driver *)

Section Internal.

Context {H : Type}.
Variables ukGROUP ukCACHEDIR : string.
Variable validateTemplate : Template -> option error.
Variables TrimSpace Dir sha256_Sum : string -> string.
Variable build : Build H.

Local Abbreviation internal := (internalOnly build).

Lemma prepareCommand_events (rawCmd : string) (h : H) :
  eventsOf (prepareCommand build rawCmd h)
  = [EvCommand (sudoPrefix build ++ rawCmd)].
Proof.
  unfold prepareCommand, eventsOf.
  destruct (Command (target build) _ h) as [[e|] h1]; reflexivity.
Qed.

Lemma prepareCommand_value (rawCmd : string) (h : H) (c : string) :
  outcomeOf (prepareCommand build rawCmd h) = Ok c ->
  c = sudoPrefix build ++ rawCmd.
Proof.
  unfold prepareCommand, outcomeOf.
  destruct (Command (target build) _ h) as [[e|] h1]; simpl; congruence.
Qed.

Lemma prepareInternalCommand_yields (rawCmd : string) :
  yields internal (fun c => c = sudoPrefix build ++ heredoc rawCmd)
    (prepareInternalCommand build rawCmd).
Proof.
  intros h. unfold prepareInternalCommand. split.
  - rewrite prepareCommand_events. repeat constructor. eexists; reflexivity.
  - intros c. apply prepareCommand_value.
Qed.

Lemma execRun_yields (rawCmd : string) :
  yields internal (fun _ => True)
    (execRun build (sudoPrefix build ++ heredoc rawCmd)).
Proof.
  intros h. unfold execRun, eventsOf.
  destruct (ExecRun (target build) _ h) as [r h1]; simpl.
  split; [|trivial]. repeat constructor. eexists; reflexivity.
Qed.

Lemma reset_yields : yields internal (fun _ => True) (reset build).
Proof.
  intros h. unfold reset, eventsOf.
  destruct (Reset (target build) h) as [[e|] h1]; simpl;
    (split; [repeat constructor | trivial]).
Qed.

(** An internal command, run. *)
Lemma internal_run_yields {A} (rawCmd : string) (Q : A -> Prop)
    (k : option error * string * string -> M H A) :
  (forall r, yields internal Q (k r)) ->
  yields internal Q
    (bind (prepareInternalCommand build rawCmd)
          (fun c => bind (execRun build c) k)).
Proof.
  intros Hk.
  eapply yields_bind; [apply prepareInternalCommand_yields|].
  intros c ->.
  eapply yields_bind; [apply execRun_yields|].
  intros r _. apply Hk.
Qed.

Lemma prepareTarget_internal :
  yields internal (fun _ => True) (prepareTarget ukGROUP ukCACHEDIR build).
Proof.
  unfold prepareTarget.
  destruct (String.eqb _ _); [apply yields_fail|].
  apply internal_run_yields. intros [[[e|] out] err].
  - apply internal_run_yields. intros [[[e2|] out2] err2].
    + apply yields_fail.
    + apply reset_yields.
  - apply yields_ret. exact I.
Qed.

Lemma buildChecksumTree_internal :
  yields internal (fun _ => True)
    (buildChecksumTree ukCACHEDIR TrimSpace Dir build).
Proof.
  unfold buildChecksumTree.
  apply internal_run_yields. intros [[[e|] out] err].
  - apply yields_fail.
  - destruct (parseChecksumLines _ _ _ _ _);
      [apply yields_ret; exact I | apply yields_fail].
Qed.

Lemma prepareTask_internal (tsk : task) (ct : gmap string (list string)) :
  yields internal (fun _ => True)
    (prepareTask ukCACHEDIR sha256_Sum build tsk ct).
Proof.
  unfold prepareTask.
  destruct (String.eqb _ _); [apply yields_fail|].
  eapply yields_bind with (Q := fun _ => True).
  - destruct (ct !! name tsk).
    + apply yields_ret. exact I.
    + apply internal_run_yields. intros [[[e|] out] err];
        [apply yields_fail | apply yields_ret; exact I].
  - intros l _. destruct (markCached _ _ _ _);
      [apply yields_ret; exact I | apply yields_fail].
Qed.

Lemma prepareTasks_internal (tsks : list task) (ct : gmap string (list string)) :
  yields internal (fun _ => True)
    (prepareTasks ukCACHEDIR sha256_Sum build tsks ct).
Proof.
  induction tsks as [|t tsks IH]; simpl.
  - apply yields_ret. exact I.
  - eapply yields_bind; [apply prepareTask_internal|]. intros t' _.
    eapply yields_bind; [apply IH|]. intros rest _.
    apply yields_ret. exact I.
Qed.

Lemma prepareBuild_internal :
  yields internal (fun _ => True)
    (prepareBuild ukGROUP ukCACHEDIR validateTemplate TrimSpace Dir sha256_Sum
       build).
Proof.
  unfold prepareBuild.
  destruct (renderTemplate _ _) as [pkg|e]; [|apply yields_fail].
  eapply yields_bind; [apply prepareTarget_internal|]. intros _ _.
  eapply yields_bind;
    [apply yields_try; apply buildChecksumTree_internal|].
  intros [ct|e] _; [|apply yields_fail].
  eapply yields_bind; [apply prepareTasks_internal|]. intros tsks _.
  apply yields_ret. exact I.
Qed.

End Internal.

(** ** C6: sudo and the heredoc of internal commands *)

(** C6.  The text [prepareCommand] sends to the target is the raw command,
    with [sudo ] in front unless the user of the build is [root];
    [prepareInternalCommand] first wraps the raw command in the heredoc of
    [sh -x -e] and then sends it the same way; and every command the driver
    sends while it prepares a build (pre-flight check, repair, checksum tree,
    checksum directories) is such a wrapped internal command. *)
Theorem prepareCommand_sudo_heredoc {H : Type}
    (ukGROUP ukCACHEDIR : string) (validateTemplate : Template -> option error)
    (TrimSpace Dir sha256_Sum : string -> string)
    (build : Build H) (rawCmd : string) (h : H) :
  let sudo :=
    if String.eqb (User (target build)) "root" then EmptyString else "sudo " in
  eventsOf (prepareCommand build rawCmd h) = [EvCommand (sudo ++ rawCmd)]
  /\ eventsOf (prepareInternalCommand build rawCmd h)
     = [EvCommand (sudo ++ ("sh -x -e <<" ++ dquote ++ "EOC" ++ dquote ++ newline
                            ++ rawCmd ++ newline ++ "EOC" ++ newline))]
  /\ Forall (fun ev =>
               match ev with
               | EvCommand text | EvExecRun text =>
                   exists raw, text = sudo ++ heredoc raw
               | EvReset => True
               | _ => False
               end)
       (eventsOf (prepareBuild ukGROUP ukCACHEDIR validateTemplate TrimSpace Dir
                    sha256_Sum build h)).
Proof.
  cbv zeta. split; [apply prepareCommand_events|].
  split; [apply (prepareCommand_events build (heredoc rawCmd))|].
  apply (prepareBuild_internal ukGROUP ukCACHEDIR validateTemplate TrimSpace Dir
           sha256_Sum build h).
Qed.

Example prepareInternalCommand_operator :
  eventsOf (prepareInternalCommand (Sim.build "deploy" [] []) "true" [])
  = [EvCommand ("sudo sh -x -e <<" ++ dquote ++ "EOC" ++ dquote ++ newline
                ++ "true" ++ newline ++ "EOC" ++ newline)].
Proof. reflexivity. Qed.

Example prepareCommand_root :
  eventsOf (prepareCommand (Sim.build "root" [] []) "apt-get update" [])
  = [EvCommand "apt-get update"].
Proof. reflexivity. Qed.

(** ** C3: a corrupt cache aborts the build *)

Section CorruptCache.

Context {H : Type}.
Variables ukGROUP ukCACHEDIR : string.
Variable validateTemplate : Template -> option error.
Variable runner_run : remoteTaskRunner H -> H -> option error * H * list (Event H).
Variable Now : H -> Time.
Variables TrimSpace Dir sha256_Sum : string -> string.

Lemma parseChecksumLines_corrupt (lines : list string)
    (ct : gmap string (list string)) :
  existsb (corruptLine TrimSpace) lines = true ->
  exists checksum pkgname,
    parseChecksumLines ukCACHEDIR TrimSpace Dir lines ct
    = Err (ErrInvalidChecksum checksum pkgname)
    /\ String.length checksum <> 64.
Proof.
  revert ct. induction lines as [|l lines IH]; intros ct Hex; simpl in Hex.
  - discriminate.
  - simpl. unfold corruptLine in Hex.
    destruct (String.eqb (TrimSpace l) EmptyString); simpl in *;
      [apply IH; exact Hex|].
    destruct (HasSuffix (TrimSpace l) ".done"); simpl in *;
      [|apply IH; exact Hex].
    destruct (Nat.eqb_spec
                (String.length (TrimSuffix (Base (TrimSpace l)) ".done")) 64)
      as [Heq|Hne]; simpl in *.
    + apply IH; exact Hex.
    + eexists _, _. split; [reflexivity | exact Hne].
Qed.

Lemma remoteRuns_internal (build : Build H) (evs : list (Event H)) :
  Forall (internalOnly build) evs -> remoteRuns evs = [].
Proof.
  induction 1 as [|ev evs Hev _ IH]; [reflexivity|].
  destruct ev; simpl in *; try exact IH. contradiction.
Qed.

(** The build stops where [prepareBuild] fails, before any command of the
    package. *)
Lemma Run_prepareBuild_error (build : Build H) (h h1 : H) (e : error)
    (evs : list (Event H)) :
  prepareBuild ukGROUP ukCACHEDIR validateTemplate TrimSpace Dir sha256_Sum
    build h = (Err e, h1, evs) ->
  Run ukGROUP ukCACHEDIR validateTemplate runner_run Now TrimSpace Dir
    sha256_Sum build h = (Err e, h1, evs)
  /\ remoteRuns evs = [].
Proof.
  intros Hp. split.
  - unfold Run, bind. rewrite Hp. reflexivity.
  - apply (remoteRuns_internal build).
    pose proof (prepareBuild_internal ukGROUP ukCACHEDIR validateTemplate
                  TrimSpace Dir sha256_Sum build h) as [Hev _].
    rewrite Hp in Hev. exact Hev.
Qed.

End CorruptCache.

(** C3.  When the target is prepared and the remote read of the checksum
    tree succeeds with an output that has a corrupt line (not blank, ending
    in [.done], with a checksum whose length is not 64), then
    [buildChecksumTree] fails with the error for an invalid checksum, [Run]
    returns that error as the error of building the checksum tree, nothing
    more is sent to the target, and no command of the package is run. *)
Theorem corrupt_cache_aborts {H : Type}
    (ukGROUP ukCACHEDIR : string) (validateTemplate : Template -> option error)
    (runner_run : remoteTaskRunner H -> H -> option error * H * list (Event H))
    (Now : H -> Time) (TrimSpace Dir sha256_Sum : string -> string)
    (build : Build H) (h h1 h2 h3 : H) (ev1 : list (Event H))
    (out err : string) :
  let read := sudoPrefix build ++ heredoc (checksumTreeCommand ukCACHEDIR) in
  validateTemplate (template build) = None ->
  prepareTarget ukGROUP ukCACHEDIR build h = (Ok tt, h1, ev1) ->
  Command (target build) read h1 = (None, h2) ->
  ExecRun (target build) read h2 = ((None, out, err), h3) ->
  existsb (corruptLine TrimSpace) (SplitByte (ascii_of_nat 10) out) = true ->
  exists checksum pkgname,
    String.length checksum <> 64
    /\ buildChecksumTree ukCACHEDIR TrimSpace Dir build h1
       = (Err (ErrInvalidChecksum checksum pkgname), h3,
          [EvCommand read; EvExecRun read])
    /\ Run ukGROUP ukCACHEDIR validateTemplate runner_run Now TrimSpace Dir
         sha256_Sum build h
       = (Err (ErrChecksumTree (ErrInvalidChecksum checksum pkgname)), h3,
          (ev1 ++ [EvCommand read; EvExecRun read])%list)
    /\ remoteRuns (ev1 ++ [EvCommand read; EvExecRun read])%list = [].
Proof.
  intros read Hvalid Htarget Hcmd Hrun Hcorrupt.
  destruct (parseChecksumLines_corrupt ukCACHEDIR TrimSpace Dir _ ∅ Hcorrupt)
    as (checksum & pkgname & Hparse & Hlen).
  assert (Htree :
    buildChecksumTree ukCACHEDIR TrimSpace Dir build h1
    = (Err (ErrInvalidChecksum checksum pkgname), h3,
       [EvCommand read; EvExecRun read])).
  { unfold buildChecksumTree, bind, prepareInternalCommand, prepareCommand,
      execRun, fail.
    fold read. rewrite Hcmd, Hrun, Hparse. reflexivity. }
  assert (Hprep :
    prepareBuild ukGROUP ukCACHEDIR validateTemplate TrimSpace Dir sha256_Sum
      build h
    = (Err (ErrChecksumTree (ErrInvalidChecksum checksum pkgname)), h3,
       (ev1 ++ [EvCommand read; EvExecRun read])%list)).
  { unfold prepareBuild, renderTemplate. rewrite Hvalid.
    unfold bind at 1. rewrite Htarget.
    unfold bind, try, fail. rewrite Htree. reflexivity. }
  exists checksum, pkgname. split; [exact Hlen|]. split; [exact Htree|].
  apply (Run_prepareBuild_error _ _ _ runner_run Now _ _ _ _ _ _ _ _ Hprep).
Qed.

(** The corrupt cache of the specification's scenario: the read answers
    [/var/lib/urknall/base/abc.done]. *)
Lemma corrupt_cache_aborts_witness :
  let b := Sim.build "root" ["echo hello"; "echo world"] [] in
  let h : Sim.Host :=
    [ (None, EmptyString, EmptyString);
      (None, "/var/lib/urknall/base/abc.done" ++ newline, EmptyString) ] in
  exists checksum pkgname,
    String.length checksum <> 64
    /\ buildChecksumTree Sim.ukCACHEDIR Sim.TrimSpace Sim.Dir b (tl h)
       = (Err (ErrInvalidChecksum checksum pkgname), [],
          [EvCommand (sudoPrefix b ++ heredoc (checksumTreeCommand Sim.ukCACHEDIR));
           EvExecRun (sudoPrefix b ++ heredoc (checksumTreeCommand Sim.ukCACHEDIR))])
    /\ Run Sim.ukGROUP Sim.ukCACHEDIR Sim.noValidation Sim.runner Sim.clock
         Sim.TrimSpace Sim.Dir SHA256.Sum b h
       = (Err (ErrChecksumTree (ErrInvalidChecksum checksum pkgname)), [],
          (eventsOf (prepareTarget Sim.ukGROUP Sim.ukCACHEDIR b h)
           ++ [EvCommand (sudoPrefix b ++ heredoc (checksumTreeCommand Sim.ukCACHEDIR));
               EvExecRun (sudoPrefix b ++ heredoc (checksumTreeCommand Sim.ukCACHEDIR))])%list)
    /\ remoteRuns
         (eventsOf (prepareTarget Sim.ukGROUP Sim.ukCACHEDIR b h)
          ++ [EvCommand (sudoPrefix b ++ heredoc (checksumTreeCommand Sim.ukCACHEDIR));
              EvExecRun (sudoPrefix b ++ heredoc (checksumTreeCommand Sim.ukCACHEDIR))])%list
       = [].
Proof.
  intros b h.
  apply (corrupt_cache_aborts Sim.ukGROUP Sim.ukCACHEDIR Sim.noValidation
           Sim.runner Sim.clock Sim.TrimSpace Sim.Dir SHA256.Sum b h (tl h) (tl h) []
           (eventsOf (prepareTarget Sim.ukGROUP Sim.ukCACHEDIR b h))
           ("/var/lib/urknall/base/abc.done" ++ newline) EmptyString);
    reflexivity.
Defined.

Example corrupt_cache_scenario :
  outcomeOf
    (Run Sim.ukGROUP Sim.ukCACHEDIR Sim.noValidation Sim.runner Sim.clock
       Sim.TrimSpace Sim.Dir SHA256.Sum
       (Sim.build "root" ["echo hello"; "echo world"] [])
       [ (None, EmptyString, EmptyString);
         (None, "/var/lib/urknall/base/abc.done" ++ newline, EmptyString) ])
  = Err (ErrChecksumTree (ErrInvalidChecksum "abc" "base")).
Proof. vm_compute. reflexivity. Qed.

(** ** C4: the preparation of the target *)

(** C4, as amended.  When the pre-flight check fails, [prepareTarget] runs
    the repair sequence (group, cache directory with mode 2775 and the
    group's ownership, membership of the user, migration to the [.v2]
    layout) as one internal command.  If the repair fails, the preparation
    fails with the error that the user could not be initiated, and the
    transport is not reset.  If the repair succeeds, the transport is reset
    and the result of the reset is the result of the preparation: the
    pre-flight check is not run a second time. *)
Theorem prepareTarget_repair {H : Type} (ukGROUP ukCACHEDIR : string)
    (build : Build H) (h h1 h2 : H) (e0 : error) (out0 err0 : string) :
  let user := User (target build) in
  let check :=
    sudoPrefix build ++ heredoc (preflightCheck ukGROUP ukCACHEDIR user) in
  let repair :=
    sudoPrefix build
    ++ heredoc
         (Join
            [ "{ grep -e '^" ++ ukGROUP ++ ":' /etc/group > /dev/null || { groupadd "
                ++ ukGROUP ++ "; }; }";
              "{ [ -d " ++ ukCACHEDIR ++ " ] || { mkdir -p -m 2775 " ++ ukCACHEDIR
                ++ " && chgrp " ++ ukGROUP ++ " " ++ ukCACHEDIR ++ "; }; }";
              "usermod -a -G " ++ ukGROUP ++ " " ++ user;
              "[ -f " ++ ukCACHEDIR ++ "/.v2 ] || { export DATE=$(date " ++ dquote
                ++ "+%Y%m%d_%H%M%S" ++ dquote ++ ") && ls " ++ ukCACHEDIR
                ++ " | while read dir; do ls -t " ++ ukCACHEDIR
                ++ "/$dir/*.done | tac > " ++ ukCACHEDIR
                ++ "/$dir/$DATE.run; done && touch " ++ ukCACHEDIR ++ "/.v2;  } " ]
            " && ") in
  user <> EmptyString ->
  Command (target build) check h = (None, h1) ->
  ExecRun (target build) check h1 = ((Some e0, out0, err0), h2) ->
  match Command (target build) repair h2 with
  | (Some e, h3) =>
      prepareTarget ukGROUP ukCACHEDIR build h
      = (Err e, h3, [EvCommand check; EvExecRun check; EvCommand repair])
  | (None, h3) =>
      match ExecRun (target build) repair h3 with
      | ((Some e, out, err), h4) =>
          prepareTarget ukGROUP ukCACHEDIR build h
          = (Err (ErrInitiateUser user e out err), h4,
             [EvCommand check; EvExecRun check; EvCommand repair;
              EvExecRun repair])
      | ((None, _, _), h4) =>
          prepareTarget ukGROUP ukCACHEDIR build h
          = (match fst (Reset (target build) h4) with
             | Some e => Err e
             | None => Ok tt
             end,
             snd (Reset (target build) h4),
             [EvCommand check; EvExecRun check; EvCommand repair;
              EvExecRun repair; EvReset])
      end
  end.
Proof.
  intros user check repair Huser Hcmd Hrun.
  unfold prepareTarget. fold user.
  destruct (String.eqb_spec user EmptyString) as [Heq|_]; [contradiction|].
  unfold bind, prepareInternalCommand, prepareCommand, execRun, fail, reset.
  fold check. rewrite Hcmd, Hrun.
  change (sudoPrefix build ++ heredoc (Join (repairCommands ukGROUP ukCACHEDIR user) " && "))
    with repair.
  destruct (Command (target build) repair h2) as [[e|] h3]; [reflexivity|].
  destruct (ExecRun (target build) repair h3) as [[[[e|] out] err] h4];
    [reflexivity|].
  destruct (Reset (target build) h4) as [[e|] h5]; reflexivity.
Qed.

(** A host whose pre-flight check fails and whose repair succeeds. *)
Lemma prepareTarget_repair_witness :
  let b := Sim.build "deploy" ["echo hello"] [] in
  let h : Sim.Host := [ (Some (ErrExternal "exit status 1"), EmptyString, EmptyString) ] in
  let check :=
    sudoPrefix b ++ heredoc (preflightCheck Sim.ukGROUP Sim.ukCACHEDIR "deploy") in
  let repair :=
    sudoPrefix b
    ++ heredoc (Join (repairCommands Sim.ukGROUP Sim.ukCACHEDIR "deploy") " && ") in
  prepareTarget Sim.ukGROUP Sim.ukCACHEDIR b h
  = (Ok tt, [],
     [EvCommand check; EvExecRun check; EvCommand repair; EvExecRun repair;
      EvReset]).
Proof.
  intros b h check repair.
  apply (prepareTarget_repair Sim.ukGROUP Sim.ukCACHEDIR b h h []
           (ErrExternal "exit status 1") EmptyString EmptyString);
    [discriminate | reflexivity | reflexivity].
Defined.

(** C4, as stated, fails: on a host whose pre-flight check fails and whose
    repair succeeds, the check is not run again after the reset. *)
Lemma prepareTarget_no_retry :
  let b := Sim.build "deploy" ["echo hello"] [] in
  let h : Sim.Host := [ (Some (ErrExternal "exit status 1"), EmptyString, EmptyString) ] in
  let check :=
    sudoPrefix b ++ heredoc (preflightCheck Sim.ukGROUP Sim.ukCACHEDIR "deploy") in
  outcomeOf (prepareTarget Sim.ukGROUP Sim.ukCACHEDIR b h) = Ok tt
  /\ In (EvReset) (eventsOf (prepareTarget Sim.ukGROUP Sim.ukCACHEDIR b h))
  /\ ~ retriedAfterReset check
         (eventsOf (prepareTarget Sim.ukGROUP Sim.ukCACHEDIR b h)).
Proof.
  intros b h check.
  split; [reflexivity|]. split; [simpl; tauto|].
  intros (before & after & Hsplit & Hin).
  change (eventsOf (prepareTarget Sim.ukGROUP Sim.ukCACHEDIR b h))
    with [EvCommand check; EvExecRun check;
          EvCommand (sudoPrefix b ++ heredoc (Join (repairCommands Sim.ukGROUP Sim.ukCACHEDIR "deploy") " && "));
          EvExecRun (sudoPrefix b ++ heredoc (Join (repairCommands Sim.ukGROUP Sim.ukCACHEDIR "deploy") " && "));
          @EvReset Sim.Host] in Hsplit.
  do 5 (destruct before as [|? before]; [try discriminate Hsplit | injection Hsplit as _ Hsplit]).
  - injection Hsplit as <-. destruct Hin.
  - destruct before; discriminate Hsplit.
Qed.

(** ** C5: the order of execution and the first error *)

Section Execution.

Context {H : Type}.
Variable ukCACHEDIR : string.
Variable runner_run : remoteTaskRunner H -> H -> option error * H * list (Event H).
Variable Now : H -> Time.
Variable build : Build H.

Lemma remoteRuns_app (a b : list (Event H)) :
  remoteRuns (a ++ b) = (remoteRuns a ++ remoteRuns b)%list.
Proof.
  induction a as [|ev a IH]; [reflexivity|].
  destruct ev; simpl; rewrite ?IH; reflexivity.
Qed.

Lemma stopsAtFirstError_cons (res : result unit)
    (r : remoteTaskRunner H) (runs : list (remoteTaskRunner H * option error))
    (todo : list (string * cmd.Command)) :
  stopsAtFirstError res runs todo ->
  stopsAtFirstError res ((r, None) :: runs)
    ((r_taskName r, r_command r) :: todo).
Proof.
  intros (rest & Htodo & Hres). exists rest. split.
  - simpl. rewrite Htodo. reflexivity.
  - destruct res as [u|e].
    + destruct Hres as [-> Hall]. split; [reflexivity|].
      constructor; [reflexivity | exact Hall].
    + destruct Hres as (runs0 & r' & -> & Hall).
      exists ((r, None) :: runs0), r'. split; [reflexivity|].
      constructor; [reflexivity | exact Hall].
Qed.

Lemma buildCommands_runs (taskName checksumDir : string) (taskStarted : Time)
    (cmds : list commandWrapper) (h : H) :
  let x := buildCommands runner_run build taskName checksumDir taskStarted cmds h in
  stopsAtFirstError (outcomeOf x) (remoteRuns (eventsOf x))
    (map (fun c => (taskName, command c))
         (List.filter (fun c => negb (cached c)) cmds)).
Proof.
  revert h. induction cmds as [|c cmds IH]; intros h; cbv zeta.
  - exists []. simpl. split; [reflexivity|]. split; [reflexivity | constructor].
  - simpl buildCommands. simpl List.filter.
    destruct (cached c) eqn:Hc; simpl negb; cbv iota.
    + specialize (IH h). cbv zeta in IH.
      unfold bind, emit.
      destruct (buildCommands _ _ _ _ _ cmds h) as [[res h1] evs].
      exact IH.
    + unfold bind, emit, try, runRemote, fail.
      destruct (runner_run _ h) as [[[e|] h1] inner]; simpl.
      * eexists. split; [reflexivity|].
        eexists [], _. split; [reflexivity | constructor].
      * specialize (IH h1). cbv zeta in IH.
        destruct (buildCommands _ _ _ _ _ cmds h1) as [[res h2] evs].
        apply (stopsAtFirstError_cons res
                 {| r_build := build; r_cmd := EmptyString;
                    r_command := command c; r_dir := checksumDir;
                    r_taskName := taskName; r_taskStarted := taskStarted |}).
        exact IH.
Qed.

Lemma stopsAtFirstError_app (res : result unit)
    (runs1 runs2 : list (remoteTaskRunner H * option error))
    (todo1 todo2 : list (string * cmd.Command)) :
  stopsAtFirstError (Ok tt) runs1 todo1 ->
  stopsAtFirstError res runs2 todo2 ->
  stopsAtFirstError res (runs1 ++ runs2) (todo1 ++ todo2).
Proof.
  intros (rest1 & -> & -> & Hall1) (rest & -> & Hres).
  exists rest. split.
  - rewrite map_app, app_nil_r, app_assoc. reflexivity.
  - destruct res as [u|e].
    + destruct Hres as [-> Hall2]. split; [reflexivity|].
      apply Forall_app; split; assumption.
    + destruct Hres as (runs0 & r & -> & Hall2).
      exists (runs1 ++ runs0)%list, r. split; [apply app_assoc|].
      apply Forall_app; split; assumption.
Qed.

Lemma stopsAtFirstError_more (e : error)
    (runs : list (remoteTaskRunner H * option error))
    (todo more : list (string * cmd.Command)) :
  stopsAtFirstError (Err e) runs todo ->
  stopsAtFirstError (Err e) runs (todo ++ more).
Proof.
  intros (rest & -> & Hres). exists (rest ++ more)%list.
  split; [symmetry; apply app_assoc | exact Hres].
Qed.

Lemma runTasks_cons (m : Message) (t : task) (tsks : list task) (h : H) :
  runTasks ukCACHEDIR runner_run Now build m (t :: tsks) h
  = match buildTask ukCACHEDIR runner_run Now build t h with
    | (Ok _, h1, ev1) =>
        match runTasks ukCACHEDIR runner_run Now build m tsks h1 with
        | (r, h2, ev2) => (r, h2, (ev1 ++ ev2)%list)
        end
    | (Err x, h1, ev1) => (Err x, h1, (ev1 ++ [EvPublishError m x])%list)
    end.
Proof.
  simpl runTasks. unfold bind, try, emit, fail. cbv beta.
  destruct (buildTask ukCACHEDIR runner_run Now build t h) as [[[[]|e] h1] ev1];
    reflexivity.
Qed.

Lemma runTasks_runs (m : Message) (tsks : list task) (h : H) :
  let x := runTasks ukCACHEDIR runner_run Now build m tsks h in
  stopsAtFirstError (outcomeOf x) (remoteRuns (eventsOf x)) (pending tsks).
Proof.
  revert h. induction tsks as [|t tsks IH]; intros h; cbv zeta.
  - exists []. simpl. split; [reflexivity|]. split; [reflexivity | constructor].
  - rewrite runTasks_cons.
    pose proof (buildCommands_runs (name t) (checksumDirOf ukCACHEDIR (name t))
                  (Now h) (commands t) h) as Ht.
    cbv zeta in Ht.
    change (buildCommands runner_run build (name t)
              (checksumDirOf ukCACHEDIR (name t)) (Now h) (commands t) h)
      with (buildTask ukCACHEDIR runner_run Now build t h) in Ht.
    destruct (buildTask ukCACHEDIR runner_run Now build t h)
      as [[[[]|e] h1] evs];
      unfold outcomeOf, eventsOf in *; simpl fst in *; simpl snd in *.
    + specialize (IH h1). cbv zeta in IH.
      destruct (runTasks _ _ _ _ _ tsks h1) as [[res h2] evs2].
      unfold outcomeOf, eventsOf in *; simpl fst in *; simpl snd in *.
      rewrite remoteRuns_app. apply stopsAtFirstError_app; assumption.
    + rewrite remoteRuns_app. simpl remoteRuns. rewrite app_nil_r.
      apply stopsAtFirstError_more. exact Ht.
Qed.

End Execution.

(** C5.  After a successful preparation, [Run] runs the commands of the
    entries that are not cached, task by task in the order of the package
    and entry by entry in the order of the task, each at most once.  It
    stops at the first run that returns an error: that run is the last one,
    every run before it succeeded, and its error is the result of [Run].
    Without an error every pending command was run. *)
Theorem Run_stops_at_first_error {H : Type}
    (ukGROUP ukCACHEDIR : string) (validateTemplate : Template -> option error)
    (runner_run : remoteTaskRunner H -> H -> option error * H * list (Event H))
    (Now : H -> Time) (TrimSpace Dir sha256_Sum : string -> string)
    (build : Build H) (h h1 : H) (pkg : packageImpl) (ev1 : list (Event H)) :
  prepareBuild ukGROUP ukCACHEDIR validateTemplate TrimSpace Dir sha256_Sum
    build h = (Ok pkg, h1, ev1) ->
  exists res h2 ev2,
    Run ukGROUP ukCACHEDIR validateTemplate runner_run Now TrimSpace Dir
      sha256_Sum build h = (res, h2, (ev1 ++ ev2)%list)
    /\ remoteRuns ev1 = []
    /\ exists rest,
         pending (tasks pkg) = (map runKey (remoteRuns ev2) ++ rest)%list
         /\ match res with
            | Ok _ =>
                rest = [] /\ Forall (fun x => snd x = None) (remoteRuns ev2)
            | Err e =>
                exists runs0 r,
                  remoteRuns ev2 = (runs0 ++ [(r, Some e)])%list
                  /\ Forall (fun x => snd x = None) runs0
            end.
Proof.
  intros Hp.
  pose proof (runTasks_runs ukCACHEDIR runner_run Now build
                (message MessageRunlistsProvision (hostname build) EmptyString)
                (tasks pkg) h1) as Hruns.
  cbv zeta in Hruns.
  destruct (runTasks ukCACHEDIR runner_run Now build _ (tasks pkg) h1)
    as [[res h2] ev2] eqn:Hrun.
  exists res, h2,
    (EvPublish (message MessageRunlistsProvision (hostname build) EmptyString)
       "started" :: ev2).
  split; [|split].
  - unfold Run. unfold bind at 1. rewrite Hp.
    unfold bind, emit. rewrite Hrun. reflexivity.
  - apply (remoteRuns_internal build).
    pose proof (prepareBuild_internal ukGROUP ukCACHEDIR validateTemplate
                  TrimSpace Dir sha256_Sum build h) as [Hev _].
    rewrite Hp in Hev. exact Hev.
  - exact Hruns.
Qed.

(** The second of three commands fails: the third is not run. *)
Lemma Run_stops_at_first_error_witness :
  let b := Sim.build "root" ["echo hello"; "exit 2"; "echo world"] [] in
  exists pkg h1 ev1,
    prepareBuild Sim.ukGROUP Sim.ukCACHEDIR Sim.noValidation Sim.TrimSpace
      Sim.Dir SHA256.Sum b [] = (Ok pkg, h1, ev1)
    /\ exists res h2 ev2,
         Run Sim.ukGROUP Sim.ukCACHEDIR Sim.noValidation Sim.runner Sim.clock
           Sim.TrimSpace Sim.Dir SHA256.Sum b [] = (res, h2, (ev1 ++ ev2)%list)
         /\ remoteRuns ev1 = []
         /\ exists rest,
              pending (tasks pkg) = (map runKey (remoteRuns ev2) ++ rest)%list
              /\ match res with
                 | Ok _ =>
                     rest = []
                     /\ Forall (fun x => snd x = None) (remoteRuns ev2)
                 | Err e =>
                     exists runs0 r,
                       remoteRuns ev2 = (runs0 ++ [(r, Some e)])%list
                       /\ Forall (fun x => snd x = None) runs0
                 end.
Proof.
  intros b. eexists _, _, _. split; [reflexivity|].
  eapply (Run_stops_at_first_error Sim.ukGROUP Sim.ukCACHEDIR Sim.noValidation
            Sim.runner Sim.clock Sim.TrimSpace Sim.Dir SHA256.Sum b []).
  reflexivity.
Defined.

Example Run_second_command_fails :
  let x :=
    Run Sim.ukGROUP Sim.ukCACHEDIR Sim.noValidation Sim.runner Sim.clock
      Sim.TrimSpace Sim.Dir SHA256.Sum
      (Sim.build "root" ["echo hello"; "exit 2"; "echo world"] []) [] in
  outcomeOf x = Err (ErrExternal "exit status 2")
  /\ map (fun r => (cmd.Shell (snd (runKey r)), snd r)) (remoteRuns (eventsOf x))
     = [ ("echo hello", None); ("exit 2", Some (ErrExternal "exit status 2")) ].
Proof. vm_compute. split; reflexivity. Qed.

(** A warm rerun: the cache lists both commands, nothing is run. *)
Example Run_warm_rerun :
  let x :=
    Run Sim.ukGROUP Sim.ukCACHEDIR Sim.noValidation Sim.runner Sim.clock
      Sim.TrimSpace Sim.Dir SHA256.Sum
      (Sim.build "root" ["echo hello"; "echo world"] [])
      [ (None, EmptyString, EmptyString);
        (None,
         "/var/lib/urknall/base/584a331fd6b02dcb1ecbe2eba731f609a2e1e3dac0bb73ae998dfad14c309a77.done"
         ++ newline ++
         "/var/lib/urknall/base/e13c5f7dcd6a1305f4ede515aaf6f3e286abec60b0fd452d568f422cfbb2be82.done"
         ++ newline, EmptyString) ] in
  outcomeOf x = Ok tt
  /\ remoteRuns (eventsOf x) = []
  /\ length (eventsOf x) = 8.
Proof. vm_compute. repeat split; reflexivity. Qed.

(** A cold run: both commands are run, in order. *)
Example Run_cold :
  let x :=
    Run Sim.ukGROUP Sim.ukCACHEDIR Sim.noValidation Sim.runner Sim.clock
      Sim.TrimSpace Sim.Dir SHA256.Sum
      (Sim.build "root" ["echo hello"; "echo world"] []) [] in
  outcomeOf x = Ok tt
  /\ map (fun r => (cmd.Shell (snd (runKey r)), snd r)) (remoteRuns (eventsOf x))
     = [ ("echo hello", None); ("echo world", None) ].
Proof. vm_compute. split; reflexivity. Qed.

(** ** The events of a whole build *)

Section BuildEvents.

Context {H : Type}.
Variables ukGROUP ukCACHEDIR : string.
Variable validateTemplate : Template -> option error.
Variable runner_run : remoteTaskRunner H -> H -> option error * H * list (Event H).
Variable Now : H -> Time.
Variables TrimSpace Dir sha256_Sum : string -> string.
Variable build : Build H.

(** What is known of the events of the runner. *)
Variable inner : remoteTaskRunner H -> list (Event H) -> Prop.
Hypothesis runner_inner : forall r h, inner r (snd (runner_run r h)).

Local Abbreviation driver := (driverEvent build inner).

Lemma internalOnly_driverEvent (ev : Event H) :
  internalOnly build ev -> driver ev.
Proof. destruct ev; simpl; try tauto. Qed.

Lemma runRemote_driver (r : remoteTaskRunner H) :
  r_build r = build -> yields driver (fun _ => True) (runRemote runner_run r).
Proof.
  intros Hb h. unfold runRemote, eventsOf.
  pose proof (runner_inner r h) as Hin.
  destruct (runner_run r h) as [[[e|] h1] evs]; simpl in *;
    (split; [repeat constructor; assumption | trivial]).
Qed.

Lemma taskMessage_hostname (taskName : string) (c : commandWrapper) :
  Hostname (taskMessage build taskName c) = hostname build.
Proof. reflexivity. Qed.

Lemma buildCommands_driver (taskName checksumDir : string) (taskStarted : Time)
    (cmds : list commandWrapper) :
  yields driver (fun _ => True)
    (buildCommands runner_run build taskName checksumDir taskStarted cmds).
Proof.
  induction cmds as [|c cmds IH]; simpl.
  - apply yields_ret. exact I.
  - destruct (cached c).
    + eapply yields_bind; [apply yields_emit with (Q := fun _ => True);
                           [reflexivity | exact I]|].
      intros _ _. exact IH.
    + eapply yields_bind; [apply yields_emit with (Q := fun _ => True);
                           [reflexivity | exact I]|].
      intros _ _.
      eapply yields_bind;
        [apply yields_try; apply runRemote_driver; reflexivity|].
      intros e _.
      eapply yields_bind; [apply yields_emit with (Q := fun _ => True);
                           [reflexivity | exact I]|].
      intros _ _. destruct e; [exact IH | apply yields_fail].
Qed.

Lemma buildTask_driver (tsk : task) :
  yields driver (fun _ => True) (buildTask ukCACHEDIR runner_run Now build tsk).
Proof. intros h. apply buildCommands_driver. Qed.

Lemma runTasks_driver (m : Message) (tsks : list task) :
  Hostname m = hostname build ->
  yields driver (fun _ => True) (runTasks ukCACHEDIR runner_run Now build m tsks).
Proof.
  intros Hm. induction tsks as [|t tsks IH]; simpl.
  - apply yields_emit; [exact Hm | exact I].
  - eapply yields_bind; [apply yields_try; apply buildTask_driver|].
    intros [u|e] _; [exact IH|].
    eapply yields_bind; [apply yields_emit with (Q := fun _ => True);
                         [exact Hm | exact I]|].
    intros _ _. apply yields_fail.
Qed.

Lemma prepareBuild_driver :
  yields driver (fun _ => True)
    (prepareBuild ukGROUP ukCACHEDIR validateTemplate TrimSpace Dir sha256_Sum
       build).
Proof.
  eapply yields_weaken; [apply internalOnly_driverEvent | | apply prepareBuild_internal].
  trivial.
Qed.

Lemma Run_driver (h : H) :
  Forall driver
    (eventsOf (Run ukGROUP ukCACHEDIR validateTemplate runner_run Now TrimSpace
                 Dir sha256_Sum build h)).
Proof.
  apply (yields_bind driver (fun _ => True) (fun _ => True)).
  - apply prepareBuild_driver.
  - intros pkg _.
    eapply yields_bind; [apply yields_emit with (Q := fun _ => True);
                         [reflexivity | exact I]|].
    intros _ _. apply runTasks_driver. reflexivity.
Qed.

Lemma dryRunCommands_driver (taskName : string) (cmds : list commandWrapper) :
  yields driver (fun _ => True) (dryRunCommands build taskName cmds).
Proof.
  induction cmds as [|c cmds IH]; simpl.
  - apply yields_ret. exact I.
  - eapply yields_bind with (Q := fun _ => True).
    + destruct (cached c); apply yields_emit; solve [reflexivity | exact I].
    + intros _ _. exact IH.
Qed.

Lemma dryRunTasks_driver (tsks : list task) :
  yields driver (fun _ => True) (dryRunTasks build tsks).
Proof.
  induction tsks as [|t tsks IH]; simpl.
  - apply yields_ret. exact I.
  - eapply yields_bind; [apply dryRunCommands_driver|]. intros _ _. exact IH.
Qed.

Lemma DryRun_driver (h : H) :
  Forall driver
    (eventsOf (DryRun ukGROUP ukCACHEDIR validateTemplate TrimSpace Dir
                 sha256_Sum build h)).
Proof.
  apply (yields_bind driver (fun _ => True) (fun _ => True)).
  - apply prepareBuild_driver.
  - intros pkg _. apply dryRunTasks_driver.
Qed.

End BuildEvents.

(** ** C10: the hostname of the messages *)

(** C10.  Every message [Run] and [DryRun] publish carries the hostname
    [MISSING] when the target of the build has no [String()] method, and
    what [String()] returns otherwise. *)
Theorem published_hostname {H : Type}
    (ukGROUP ukCACHEDIR : string) (validateTemplate : Template -> option error)
    (runner_run : remoteTaskRunner H -> H -> option error * H * list (Event H))
    (Now : H -> Time) (TrimSpace Dir sha256_Sum : string -> string)
    (build : Build H) (h : H) :
  let host :=
    match String_ (target build) with
    | Some s => s
    | None => "MISSING"
    end in
  Forall (fun ev =>
            match ev with
            | EvPublish m _ | EvPublishError m _ => Hostname m = host
            | _ => True
            end)
    (eventsOf (Run ukGROUP ukCACHEDIR validateTemplate runner_run Now TrimSpace
                 Dir sha256_Sum build h))
  /\ Forall (fun ev =>
               match ev with
               | EvPublish m _ | EvPublishError m _ => Hostname m = host
               | _ => True
               end)
       (eventsOf (DryRun ukGROUP ukCACHEDIR validateTemplate TrimSpace Dir
                    sha256_Sum build h)).
Proof.
  cbv zeta. split.
  - eapply Forall_impl;
      [apply (Run_driver ukGROUP ukCACHEDIR validateTemplate runner_run Now
                TrimSpace Dir sha256_Sum build (fun _ _ => True));
       intros; exact I|].
    intros [] Hev; simpl in *; trivial.
  - eapply Forall_impl;
      [apply (DryRun_driver ukGROUP ukCACHEDIR validateTemplate TrimSpace Dir
                sha256_Sum build (fun _ _ => True))|].
    intros [] Hev; simpl in *; trivial.
Qed.

Example hostname_missing :
  hostname {| target := Sim.scripted "root" None;
              template := Sim.templateOf []; Env := [] |} = "MISSING"
  /\ hostname (Sim.build "root" [] []) = "host.example".
Proof. split; reflexivity. Qed.

Example Run_publishes :
  let b := {| target := Sim.scripted "root" None;
              template := Sim.templateOf ["echo hello"]; Env := [] |} in
  map (fun ev => match ev with
                 | EvPublish m key => Some (Hostname m, key)
                 | _ => None
                 end)
      (List.filter (fun ev => match ev with EvPublish _ _ => true | _ => false end)
         (eventsOf (Run Sim.ukGROUP Sim.ukCACHEDIR Sim.noValidation Sim.runner
                      Sim.clock Sim.TrimSpace Sim.Dir SHA256.Sum b [])))
  = [ Some ("MISSING", "started"); Some ("MISSING", "started");
      Some ("MISSING", "finished"); Some ("MISSING", "finished") ].
Proof. vm_compute. reflexivity. Qed.

(** ** C7: the environment of the build *)

Lemma envShell_prefixes (env : list string) (shell : string) :
  envShell env shell
  = fold_right (fun e rest => e ++ " " ++ rest) shell (rev env).
Proof.
  unfold envShell. revert shell.
  induction env as [|e env IH]; intros shell; simpl; [reflexivity|].
  rewrite IH, fold_right_app. reflexivity.
Qed.

Lemma specRunner_sends {H : Type}
    (recordOutcome : string -> string -> option error -> string -> H -> H)
    (sha256_Sum : string -> string) (r : remoteTaskRunner H) (h : H) :
  Forall (fun ev => match ev with
                    | EvCommand text | EvExecRun text => text = finalShellText H r
                    | _ => True
                    end)
    (snd (specRunner H recordOutcome sha256_Sum r h)).
Proof.
  unfold specRunner.
  destruct (Command (target (r_build r)) _ h) as [[e|] h1]; simpl.
  - repeat constructor.
  - destruct (ExecRun (target (r_build r)) _ h1) as [[[e out] err] h2]; simpl.
    repeat constructor.
Qed.

(** C7.  With the remote task runner of the specification, every command
    run on the target during [Run] is invoked with the entries of the
    build's [Env] list in front, each verbatim and followed by a blank, in
    the order of the list, before the sudo prefix and the string of
    [Shell()].  And the shell text [executeCommand] hands to the runner has
    every entry of [Env], verbatim and followed by a blank, in front of
    [Shell()] (the last entry first). *)
Theorem env_prefix_on_commands {H : Type}
    (ukGROUP ukCACHEDIR : string) (validateTemplate : Template -> option error)
    (recordOutcome : string -> string -> option error -> string -> H -> H)
    (Now : H -> Time) (TrimSpace Dir sha256_Sum : string -> string)
    (build : Build H) (h : H) :
  let runner := specRunner H recordOutcome sha256_Sum in
  Forall (fun ev =>
            match ev with
            | EvRemoteTask r _ sent =>
                r_build r = build
                /\ Forall (fun ev' =>
                             match ev' with
                             | EvCommand text | EvExecRun text =>
                                 text
                                 = fold_right (fun e rest => e ++ " " ++ rest)
                                     (sudoPrefix build ++ cmd.Shell (r_command r))
                                     (Env build)
                             | _ => True
                             end) sent
            | _ => True
            end)
    (eventsOf (Run ukGROUP ukCACHEDIR validateTemplate runner Now TrimSpace Dir
                 sha256_Sum build h))
  /\ forall (c : cmd.Command) (checksumDir taskName : string),
       exists e sent,
         eventsOf (executeCommand runner c build checksumDir taskName h)
         = [ EvRemoteTask
               {| r_build := build;
                  r_cmd := fold_right (fun e rest => e ++ " " ++ rest)
                             (cmd.Shell c) (rev (Env build));
                  r_command := c; r_dir := checksumDir;
                  r_taskName := taskName; r_taskStarted := 0 |} e sent ].
Proof.
  cbv zeta. split.
  - eapply Forall_impl;
      [apply (Run_driver ukGROUP ukCACHEDIR validateTemplate
                (specRunner H recordOutcome sha256_Sum) Now TrimSpace Dir
                sha256_Sum build
                (fun r evs =>
                   Forall (fun ev => match ev with
                                     | EvCommand text | EvExecRun text =>
                                         text = finalShellText H r
                                     | _ => True
                                     end) evs));
       apply specRunner_sends|].
    intros [] Hev; simpl in *; trivial.
    destruct Hev as [<- Hsent]. split; [reflexivity | exact Hsent].
  - intros c checksumDir taskName.
    unfold executeCommand, runRemote, eventsOf.
    rewrite envShell_prefixes.
    destruct (specRunner H recordOutcome sha256_Sum _ h) as [[[e|] h1] sent];
      eexists _, _; reflexivity.
Qed.

Example env_prefix_scenario :
  let b := Sim.build "deploy" ["echo hello"] ["A=1"; "B=2"] in
  let x :=
    Run Sim.ukGROUP Sim.ukCACHEDIR Sim.noValidation
      (specRunner Sim.Host (fun _ _ _ _ h => h) SHA256.Sum) Sim.clock
      Sim.TrimSpace Sim.Dir SHA256.Sum b [] in
  flat_map (fun ev => match ev with
                      | EvRemoteTask _ _ sent => sent
                      | _ => []
                      end) (eventsOf x)
  = [ EvCommand "A=1 B=2 sudo echo hello"; EvExecRun "A=1 B=2 sudo echo hello" ]
  /\ envShell ["A=1"; "B=2"] "echo hello" = "B=2 A=1 echo hello".
Proof. vm_compute. split; reflexivity. Qed.

(** ** C8 and C9: adding to a runlist *)

Lemma lookup_end {A} (l : list A) (x : A) :
  (l ++ [x])%list !! length l = Some x.
Proof.
  rewrite lookup_app_r by lia. rewrite Nat.sub_diag. reflexivity.
Qed.

Lemma insert_end {A} (l : list A) (x y : A) :
  <[length l := y]> (l ++ [x])%list = (l ++ [y])%list.
Proof.
  rewrite insert_app_r_alt by lia. rewrite Nat.sub_diag. reflexivity.
Qed.

(** C8.  A value copy of a shell command or of a file command (and of any
    command whose [Shell()] has a pointer receiver) is not stored: [Add]
    panics with the message that the type is not supported, whatever the
    runlist and the store. *)
Theorem Add_value_copy_rejected (Pkg : Type)
    (MustRenderTemplate : string -> Pkg -> option string)
    (rl : Runlist.Runlist Pkg) (store : list Runlist.object) :
  (forall c,
      Runlist.Add Pkg MustRenderTemplate rl store (Runlist.ValShellCommand c)
      = Runlist.Panicked (Runlist.PanicTypeNotSupported "cmd.ShellCommand"))
  /\ (forall path content,
         Runlist.Add Pkg MustRenderTemplate rl store
           (Runlist.ValFileCommand path content)
         = Runlist.Panicked (Runlist.PanicTypeNotSupported "cmd.FileCommand"))
  /\ (forall typeName,
         Runlist.Add Pkg MustRenderTemplate rl store
           (Runlist.Other typeName false)
         = Runlist.Panicked (Runlist.PanicTypeNotSupported typeName)).
Proof. repeat split. Qed.

(** C9.  For a string [s], [Add] does what it does for a pointer to a new
    shell command holding [s]: when the template [s] expands to [s'] against
    the configuration of the package, the runlist gets one more entry, at
    the end, which points to a new shell command whose [Command] field is
    [s'], and the objects that existed are untouched; when the expansion
    panics, so does [Add]. *)
Theorem Add_string_is_shell_command (Pkg : Type)
    (MustRenderTemplate : string -> Pkg -> option string)
    (rl : Runlist.Runlist Pkg) (store : list Runlist.object) (s : string) :
  Runlist.Add Pkg MustRenderTemplate rl store (Runlist.Str s)
  = Runlist.Add Pkg MustRenderTemplate rl
      (store ++ [Runlist.ShellCommand s])%list
      (Runlist.PtrShellCommand (length store))
  /\ Runlist.Add Pkg MustRenderTemplate rl store (Runlist.Str s)
     = match MustRenderTemplate s (Runlist.pkg Pkg rl) with
       | Some s' =>
           Runlist.Done
             ({| Runlist.commands :=
                   (Runlist.commands Pkg rl
                    ++ [Runlist.PtrShellCommand (length store)])%list;
                 Runlist.pkg := Runlist.pkg Pkg rl;
                 Runlist.name := Runlist.name Pkg rl |},
              (store ++ [Runlist.ShellCommand s'])%list)
       | None => Runlist.Panicked (Runlist.PanicRender s)
       end.
Proof.
  split; [reflexivity|].
  unfold Runlist.Add, Runlist.addShellCommand.
  rewrite lookup_end.
  destruct (MustRenderTemplate s (Runlist.pkg Pkg rl)) as [s'|]; [|reflexivity].
  rewrite insert_end. reflexivity.
Qed.

Example Add_string_expanded :
  Runlist.Add Sim.somePackage Sim.render
    {| Runlist.commands := []; Runlist.pkg := Sim.mkSomePackage "something" "1";
       Runlist.name := "pkg" |}
    [] (Runlist.Str "string with {{ .SField }} and {{ .IField }}")
  = Runlist.Done
      ({| Runlist.commands := [Runlist.PtrShellCommand 0];
          Runlist.pkg := Sim.mkSomePackage "something" "1";
          Runlist.name := "pkg" |},
       [Runlist.ShellCommand "string with something and 1"]).
Proof. reflexivity. Qed.

Example Add_by_reference_expanded :
  Runlist.Add Sim.somePackage Sim.render
    {| Runlist.commands := []; Runlist.pkg := Sim.mkSomePackage "something" "1";
       Runlist.name := "pkg" |}
    [Runlist.FileCommand "/tmp/foo" "{{ .SField }} = {{ .IField }}"]
    (Runlist.PtrFileCommand 0)
  = Runlist.Done
      ({| Runlist.commands := [Runlist.PtrFileCommand 0];
          Runlist.pkg := Sim.mkSomePackage "something" "1";
          Runlist.name := "pkg" |},
       [Runlist.FileCommand "/tmp/foo" "something = 1"]).
Proof. reflexivity. Qed.

Example Add_by_value_panics :
  Runlist.Add Sim.somePackage Sim.render
    {| Runlist.commands := []; Runlist.pkg := Sim.mkSomePackage "something" "1";
       Runlist.name := "pkg" |}
    [] (Runlist.ValShellCommand "string with {{ .SField }}")
  = Runlist.Panicked (Runlist.PanicTypeNotSupported "cmd.ShellCommand").
Proof. reflexivity. Qed.

(** * Further properties of the driver *)

(** ** Failures before anything is executed *)

Section EarlyFailures.

Context {H : Type}.
Variables ukGROUP ukCACHEDIR : string.
Variable validateTemplate : Template -> option error.
Variable runner_run : remoteTaskRunner H -> H -> option error * H * list (Event H).
Variable Now : H -> Time.
Variables TrimSpace Dir sha256_Sum : string -> string.
Variable build : Build H.

Lemma Run_of_prepareBuild_error (h h1 : H) (e : error) (evs : list (Event H)) :
  prepareBuild ukGROUP ukCACHEDIR validateTemplate TrimSpace Dir sha256_Sum
    build h = (Err e, h1, evs) ->
  Run ukGROUP ukCACHEDIR validateTemplate runner_run Now TrimSpace Dir
    sha256_Sum build h = (Err e, h1, evs)
  /\ DryRun ukGROUP ukCACHEDIR validateTemplate TrimSpace Dir sha256_Sum
       build h = (Err e, h1, evs).
Proof.
  intros Hp. unfold Run, DryRun, bind. rewrite Hp. split; reflexivity.
Qed.

Lemma prepareBuild_of_prepareTarget_error (h h1 : H) (e : error)
    (evs : list (Event H)) :
  validateTemplate (template build) = None ->
  prepareTarget ukGROUP ukCACHEDIR build h = (Err e, h1, evs) ->
  prepareBuild ukGROUP ukCACHEDIR validateTemplate TrimSpace Dir sha256_Sum
    build h = (Err e, h1, evs).
Proof.
  intros Hv Ht. unfold prepareBuild, renderTemplate. rewrite Hv.
  unfold bind at 1. rewrite Ht. reflexivity.
Qed.

End EarlyFailures.

(** A template that does not pass [validateTemplate] stops [Run] and
    [DryRun] at once: they return the error of the validation, nothing is
    sent to the target, nothing is published, and the host is as it was. *)
Theorem invalid_template_sends_nothing {H : Type}
    (ukGROUP ukCACHEDIR : string) (validateTemplate : Template -> option error)
    (runner_run : remoteTaskRunner H -> H -> option error * H * list (Event H))
    (Now : H -> Time) (TrimSpace Dir sha256_Sum : string -> string)
    (build : Build H) (h : H) (e : error) :
  validateTemplate (template build) = Some e ->
  Run ukGROUP ukCACHEDIR validateTemplate runner_run Now TrimSpace Dir
    sha256_Sum build h = (Err e, h, [])
  /\ DryRun ukGROUP ukCACHEDIR validateTemplate TrimSpace Dir sha256_Sum
       build h = (Err e, h, []).
Proof.
  intros Hv. apply Run_of_prepareBuild_error.
  unfold prepareBuild, renderTemplate. rewrite Hv. reflexivity.
Qed.

Lemma invalid_template_sends_nothing_witness :
  let invalid := fun _ : Template => Some (ErrExternal "no such field") in
  let b := Sim.build "root" ["echo hello"] [] in
  Run Sim.ukGROUP Sim.ukCACHEDIR invalid Sim.runner Sim.clock Sim.TrimSpace
    Sim.Dir SHA256.Sum b [] = (Err (ErrExternal "no such field"), [], [])
  /\ DryRun Sim.ukGROUP Sim.ukCACHEDIR invalid Sim.TrimSpace Sim.Dir SHA256.Sum
       b [] = (Err (ErrExternal "no such field"), [], []).
Proof.
  intros invalid b.
  apply (invalid_template_sends_nothing Sim.ukGROUP Sim.ukCACHEDIR invalid
           Sim.runner Sim.clock Sim.TrimSpace Sim.Dir SHA256.Sum b []).
  reflexivity.
Defined.

(** A target whose [User()] is empty is not touched: [prepareTarget] fails
    with the error that the user is not set before any command is created,
    and so do [Run] and [DryRun] for a valid template. *)
Theorem unset_user_sends_nothing {H : Type}
    (ukGROUP ukCACHEDIR : string) (validateTemplate : Template -> option error)
    (runner_run : remoteTaskRunner H -> H -> option error * H * list (Event H))
    (Now : H -> Time) (TrimSpace Dir sha256_Sum : string -> string)
    (build : Build H) (h : H) :
  validateTemplate (template build) = None ->
  User (target build) = EmptyString ->
  prepareTarget ukGROUP ukCACHEDIR build h = (Err ErrUserNotSet, h, [])
  /\ Run ukGROUP ukCACHEDIR validateTemplate runner_run Now TrimSpace Dir
       sha256_Sum build h = (Err ErrUserNotSet, h, [])
  /\ DryRun ukGROUP ukCACHEDIR validateTemplate TrimSpace Dir sha256_Sum
       build h = (Err ErrUserNotSet, h, []).
Proof.
  intros Hv Hu.
  assert (Ht : prepareTarget ukGROUP ukCACHEDIR build h
               = (Err ErrUserNotSet, h, [])).
  { unfold prepareTarget. rewrite Hu. reflexivity. }
  split; [exact Ht|].
  apply Run_of_prepareBuild_error.
  apply prepareBuild_of_prepareTarget_error; assumption.
Qed.

Lemma unset_user_sends_nothing_witness :
  let b := Sim.build EmptyString ["echo hello"] [] in
  prepareTarget Sim.ukGROUP Sim.ukCACHEDIR b [] = (Err ErrUserNotSet, [], [])
  /\ Run Sim.ukGROUP Sim.ukCACHEDIR Sim.noValidation Sim.runner Sim.clock
       Sim.TrimSpace Sim.Dir SHA256.Sum b [] = (Err ErrUserNotSet, [], [])
  /\ DryRun Sim.ukGROUP Sim.ukCACHEDIR Sim.noValidation Sim.TrimSpace Sim.Dir
       SHA256.Sum b [] = (Err ErrUserNotSet, [], []).
Proof.
  intros b.
  apply (unset_user_sends_nothing Sim.ukGROUP Sim.ukCACHEDIR Sim.noValidation
           Sim.runner Sim.clock Sim.TrimSpace Sim.Dir SHA256.Sum b []);
    reflexivity.
Defined.

(** When the preparation of the target fails, [Run] and [DryRun] return its
    error and stop there: their events are those of [prepareTarget], so the
    checksum tree is not read and no task is prepared. *)
Theorem failed_preparation_stops_build {H : Type}
    (ukGROUP ukCACHEDIR : string) (validateTemplate : Template -> option error)
    (runner_run : remoteTaskRunner H -> H -> option error * H * list (Event H))
    (Now : H -> Time) (TrimSpace Dir sha256_Sum : string -> string)
    (build : Build H) (h h1 : H) (e : error) (evs : list (Event H)) :
  validateTemplate (template build) = None ->
  prepareTarget ukGROUP ukCACHEDIR build h = (Err e, h1, evs) ->
  Run ukGROUP ukCACHEDIR validateTemplate runner_run Now TrimSpace Dir
    sha256_Sum build h = (Err e, h1, evs)
  /\ DryRun ukGROUP ukCACHEDIR validateTemplate TrimSpace Dir sha256_Sum
       build h = (Err e, h1, evs).
Proof.
  intros Hv Ht. apply Run_of_prepareBuild_error.
  apply prepareBuild_of_prepareTarget_error; assumption.
Qed.

(** The check fails and so does the repair. *)
Lemma failed_preparation_stops_build_witness :
  let b := Sim.build "deploy" ["echo hello"] [] in
  let h : Sim.Host :=
    [ (Some (ErrExternal "exit status 1"), EmptyString, EmptyString);
      (Some (ErrExternal "exit status 6"), EmptyString, "usermod: no such user") ] in
  let e := ErrInitiateUser "deploy" (ErrExternal "exit status 6") EmptyString
             "usermod: no such user" in
  Run Sim.ukGROUP Sim.ukCACHEDIR Sim.noValidation Sim.runner Sim.clock
    Sim.TrimSpace Sim.Dir SHA256.Sum b h
  = (Err e, [], eventsOf (prepareTarget Sim.ukGROUP Sim.ukCACHEDIR b h))
  /\ DryRun Sim.ukGROUP Sim.ukCACHEDIR Sim.noValidation Sim.TrimSpace Sim.Dir
       SHA256.Sum b h
     = (Err e, [], eventsOf (prepareTarget Sim.ukGROUP Sim.ukCACHEDIR b h)).
Proof.
  intros b h e.
  apply (failed_preparation_stops_build Sim.ukGROUP Sim.ukCACHEDIR
           Sim.noValidation Sim.runner Sim.clock Sim.TrimSpace Sim.Dir
           SHA256.Sum b h); reflexivity.
Defined.

(** On a target that passes the pre-flight check, [prepareTarget] sends
    the check and nothing else: no repair, no reset of the transport.  When
    the command of the check cannot be created, its error is the result and
    nothing is run. *)
Theorem prepareTarget_healthy {H : Type} (ukGROUP ukCACHEDIR : string)
    (build : Build H) (h : H) :
  let check :=
    sudoPrefix build
    ++ heredoc (preflightCheck ukGROUP ukCACHEDIR (User (target build))) in
  User (target build) <> EmptyString ->
  match Command (target build) check h with
  | (Some e, h1) =>
      prepareTarget ukGROUP ukCACHEDIR build h = (Err e, h1, [EvCommand check])
  | (None, h1) =>
      forall out err h2,
        ExecRun (target build) check h1 = ((None, out, err), h2) ->
        prepareTarget ukGROUP ukCACHEDIR build h
        = (Ok tt, h2, [EvCommand check; EvExecRun check])
  end.
Proof.
  intros check Hu. unfold prepareTarget.
  destruct (String.eqb_spec (User (target build)) EmptyString) as [Heq|_];
    [contradiction|].
  unfold bind, prepareInternalCommand, prepareCommand, execRun. fold check.
  destruct (Command (target build) check h) as [[e|] h1]; [reflexivity|].
  intros out err h2 Hrun. rewrite Hrun. reflexivity.
Qed.

Lemma prepareTarget_healthy_witness :
  let b := Sim.build "deploy" ["echo hello"] [] in
  let check :=
    sudoPrefix b ++ heredoc (preflightCheck Sim.ukGROUP Sim.ukCACHEDIR "deploy") in
  prepareTarget Sim.ukGROUP Sim.ukCACHEDIR b []
  = (Ok tt, [], [EvCommand check; EvExecRun check]).
Proof.
  intros b check.
  apply (prepareTarget_healthy Sim.ukGROUP Sim.ukCACHEDIR b []
           ltac:(discriminate) EmptyString EmptyString []).
  reflexivity.
Defined.

(** ** The preparation of a task *)

Section PrepareTask.

Context {H : Type}.
Variable ukCACHEDIR : string.
Variable sha256_Sum : string -> string.
Variable build : Build H.

Local Abbreviation diffed l cmds :=
  (imap (fun j c => if matchesAt sha256_Sum l j c then setCached c else c) cmds).

Lemma prepareTask_in_tree (tsk : task) (ct : gmap string (list string))
    (l : list string) (h : H) :
  name tsk <> EmptyString ->
  ct !! name tsk = Some l ->
  prepareTask ukCACHEDIR sha256_Sum build tsk ct h
  = (Ok {| name := name tsk; commands := diffed l (commands tsk);
           started := started tsk |}, h, []).
Proof.
  intros Hn Hl. unfold prepareTask.
  destruct (String.eqb_spec (name tsk) EmptyString) as [Heq|_]; [contradiction|].
  rewrite Hl. unfold bind, ret.
  rewrite (markCached_positional sha256_Sum l (commands tsk) 0). reflexivity.
Qed.

Lemma diffed_nil (cmds : list commandWrapper) : diffed [] cmds = cmds.
Proof.
  apply list_eq. intros j. rewrite list_lookup_imap.
  destruct (cmds !! j) as [c|]; reflexivity.
Qed.

Lemma diffed_lookup (l : list string) (cmds : list commandWrapper) (j : nat)
    (c : commandWrapper) :
  cmds !! j = Some c ->
  diffed l cmds !! j
  = Some (if matchesAt sha256_Sum l j c then setCached c else c).
Proof. intros Hj. rewrite list_lookup_imap, Hj. reflexivity. Qed.

Lemma diffed_command (l : list string) (cmds : list commandWrapper) :
  map command (diffed l cmds) = map command cmds
  /\ map cw_Checksum (diffed l cmds) = map cw_Checksum cmds
  /\ map cw_LogMsg (diffed l cmds) = map cw_LogMsg cmds.
Proof.
  repeat split; apply list_eq; intros j;
    rewrite !list_lookup_fmap, list_lookup_imap;
    destruct (cmds !! j) as [c|]; simpl; try reflexivity;
    destruct (matchesAt sha256_Sum l j c); reflexivity.
Qed.

Lemma diffed_monotone (l : list string) (cmds : list commandWrapper) (j : nat)
    (c c' : commandWrapper) :
  cmds !! j = Some c -> diffed l cmds !! j = Some c' ->
  cached c = true -> cached c' = true.
Proof.
  intros Hj Hj' Hc. rewrite (diffed_lookup l cmds j c Hj) in Hj'.
  injection Hj' as <-. destruct (matchesAt sha256_Sum l j c); [reflexivity | exact Hc].
Qed.

(** Whatever [prepareTask] returns is the task with some flags set. *)
Lemma prepareTask_result (tsk t' : task) (ct : gmap string (list string)) (h : H) :
  outcomeOf (prepareTask ukCACHEDIR sha256_Sum build tsk ct h) = Ok t' ->
  exists l,
    t' = {| name := name tsk; commands := diffed l (commands tsk);
            started := started tsk |}.
Proof.
  unfold prepareTask.
  destruct (String.eqb (name tsk) EmptyString); [discriminate|].
  unfold bind, outcomeOf.
  destruct (ct !! name tsk) as [l|].
  - unfold ret. rewrite (markCached_positional sha256_Sum l (commands tsk) 0).
    simpl. intros Heq. injection Heq as <-. exists l. reflexivity.
  - unfold prepareInternalCommand, prepareCommand, execRun.
    destruct (Command (target build) _ h) as [[e|] h1]; [discriminate|].
    destruct (ExecRun (target build) _ h1) as [[[[e|] out] err] h2];
      [discriminate|].
    unfold ret. rewrite (markCached_positional sha256_Sum [] (commands tsk) 0).
    simpl. intros Heq. injection Heq as <-. exists []. reflexivity.
Qed.

End PrepareTask.

(** For a task the checksum tree knows, [prepareTask] is a local
    computation that cannot fail: nothing is sent to the target, the host is
    as it was, and an entry that was not cached is cached afterwards exactly
    when the cached list has the entry's fingerprint at the entry's
    position. *)
Theorem prepareTask_known_task {H : Type} (ukCACHEDIR : string)
    (sha256_Sum : string -> string) (build : Build H) (tsk : task)
    (ct : gmap string (list string)) (l : list string) (h : H) :
  name tsk <> EmptyString ->
  ct !! name tsk = Some l ->
  exists t',
    prepareTask ukCACHEDIR sha256_Sum build tsk ct h = (Ok t', h, [])
    /\ length (commands t') = length (commands tsk)
    /\ forall j c,
         commands tsk !! j = Some c -> cached c = false ->
         exists c',
           commands t' !! j = Some c'
           /\ (cached c' = true
               <-> l !! j = Some (fingerprint sha256_Sum (command c))).
Proof.
  intros Hn Hl. eexists. split; [apply prepareTask_in_tree; eassumption|].
  simpl. split; [apply length_imap|].
  intros j c Hj Hc. eexists. split; [apply diffed_lookup; exact Hj|].
  unfold matchesAt. destruct (l !! j) as [x|]; simpl.
  - destruct (String.eqb_spec (fingerprint sha256_Sum (command c)) x) as [->|Hne];
      simpl.
    + split; reflexivity.
    + rewrite Hc. split; [discriminate | congruence].
  - rewrite Hc. split; discriminate.
Qed.

Lemma prepareTask_known_task_witness :
  let b := Sim.build "root" ["echo hello"; "echo changed"; "echo world"] [] in
  exists t',
    prepareTask Sim.ukCACHEDIR SHA256.Sum b Sim.changedTask Sim.cachedTree []
    = (Ok t', [], [])
    /\ length (commands t') = 3
    /\ forall j c,
         commands Sim.changedTask !! j = Some c -> cached c = false ->
         exists c',
           commands t' !! j = Some c'
           /\ (cached c' = true
               <-> [ hex (SHA256.Sum "echo hello");
                     hex (SHA256.Sum "echo middle");
                     hex (SHA256.Sum "echo world") ] !! j
                   = Some (fingerprint SHA256.Sum (command c))).
Proof.
  intros b.
  apply (prepareTask_known_task Sim.ukCACHEDIR SHA256.Sum b Sim.changedTask
           Sim.cachedTree _ []); [discriminate | reflexivity].
Defined.

(** For a task the checksum tree does not know, [prepareTask] creates the
    checksum directory of the task with one internal command,
    [mkdir -m2775 -p] of the cache directory and the name of the task.  When
    that command fails, the error carries what it wrote to stderr; when it
    succeeds, the task is returned as it was: no entry is marked cached. *)
Theorem prepareTask_unknown_task {H : Type} (ukCACHEDIR : string)
    (sha256_Sum : string -> string) (build : Build H) (tsk : task)
    (ct : gmap string (list string)) (h h1 : H) :
  let mkdir :=
    sudoPrefix build
    ++ heredoc ("mkdir -m2775 -p " ++ ukCACHEDIR ++ "/" ++ name tsk) in
  name tsk <> EmptyString ->
  ct !! name tsk = None ->
  Command (target build) mkdir h = (None, h1) ->
  match ExecRun (target build) mkdir h1 with
  | ((Some e, _, err), h2) =>
      prepareTask ukCACHEDIR sha256_Sum build tsk ct h
      = (Err (ErrCreateChecksumDir err e), h2,
         [EvCommand mkdir; EvExecRun mkdir])
  | ((None, _, _), h2) =>
      prepareTask ukCACHEDIR sha256_Sum build tsk ct h
      = (Ok tsk, h2, [EvCommand mkdir; EvExecRun mkdir])
  end.
Proof.
  intros mkdir Hn Hl Hcmd. unfold prepareTask.
  destruct (String.eqb_spec (name tsk) EmptyString) as [Heq|_]; [contradiction|].
  rewrite Hl.
  unfold bind, prepareInternalCommand, prepareCommand, execRun, checksumDirOf.
  fold mkdir. rewrite Hcmd.
  destruct (ExecRun (target build) mkdir h1) as [[[[e|] out] err] h2];
    [reflexivity|].
  unfold ret, fail.
  rewrite (markCached_positional sha256_Sum [] (commands tsk) 0), diffed_nil.
  destruct tsk; reflexivity.
Qed.

Lemma prepareTask_unknown_task_witness :
  let b := Sim.build "deploy" ["echo hello"] [] in
  let mkdir := "sudo " ++ heredoc "mkdir -m2775 -p /var/lib/urknall/base" in
  prepareTask Sim.ukCACHEDIR SHA256.Sum b Sim.changedTask ∅ []
  = (Ok Sim.changedTask, [], [EvCommand mkdir; EvExecRun mkdir]).
Proof.
  intros b mkdir.
  apply (prepareTask_unknown_task Sim.ukCACHEDIR SHA256.Sum b Sim.changedTask
           ∅ [] []); [discriminate | reflexivity | reflexivity].
Defined.

(** Whenever [prepareTask] succeeds, the task it leaves is the same task:
    same name, same start time, the same commands in the same order with
    their checksums and log messages.  Only [cached] flags change, and only
    from false to true. *)
Theorem prepareTask_keeps_task {H : Type} (ukCACHEDIR : string)
    (sha256_Sum : string -> string) (build : Build H) (tsk t' : task)
    (ct : gmap string (list string)) (h : H) :
  outcomeOf (prepareTask ukCACHEDIR sha256_Sum build tsk ct h) = Ok t' ->
  name t' = name tsk
  /\ started t' = started tsk
  /\ map command (commands t') = map command (commands tsk)
  /\ map cw_Checksum (commands t') = map cw_Checksum (commands tsk)
  /\ map cw_LogMsg (commands t') = map cw_LogMsg (commands tsk)
  /\ forall j c c',
       commands tsk !! j = Some c -> commands t' !! j = Some c' ->
       cached c = true -> cached c' = true.
Proof.
  intros Hok.
  destruct (prepareTask_result ukCACHEDIR sha256_Sum build tsk t' ct h Hok)
    as [l ->]; simpl.
  destruct (diffed_command sha256_Sum l (commands tsk)) as (Hc & Hs & Hm).
  repeat split; try assumption.
  intros j c c'. apply diffed_monotone.
Qed.

Lemma prepareTask_keeps_task_witness :
  let b := Sim.build "root" ["echo hello"; "echo changed"; "echo world"] [] in
  exists t',
    outcomeOf (prepareTask Sim.ukCACHEDIR SHA256.Sum b Sim.changedTask
                 Sim.cachedTree []) = Ok t'
    /\ name t' = "base"
    /\ started t' = 0
    /\ map command (commands t') = map command (commands Sim.changedTask)
    /\ map cw_Checksum (commands t') = map cw_Checksum (commands Sim.changedTask)
    /\ map cw_LogMsg (commands t') = map cw_LogMsg (commands Sim.changedTask)
    /\ forall j c c',
         commands Sim.changedTask !! j = Some c -> commands t' !! j = Some c' ->
         cached c = true -> cached c' = true.
Proof.
  intros b. eexists. split; [reflexivity|].
  eapply (prepareTask_keeps_task Sim.ukCACHEDIR SHA256.Sum b Sim.changedTask _
            Sim.cachedTree []).
  reflexivity.
Defined.

(** A task whose commands are the ones of the cached run, in the same
    order, is cached entirely: when the cached list of the task starts with
    the fingerprints of its commands, [prepareTask] marks every entry
    cached, and sends nothing to the target. *)
Theorem prepareTask_unchanged_all_cached {H : Type} (ukCACHEDIR : string)
    (sha256_Sum : string -> string) (build : Build H) (tsk : task)
    (ct : gmap string (list string)) (more : list string) (h : H) :
  name tsk <> EmptyString ->
  ct !! name tsk
  = Some (map (fun c => fingerprint sha256_Sum (command c)) (commands tsk)
          ++ more)%list ->
  exists t',
    prepareTask ukCACHEDIR sha256_Sum build tsk ct h = (Ok t', h, [])
    /\ Forall (fun c => cached c = true) (commands t')
    /\ map command (commands t') = map command (commands tsk).
Proof.
  intros Hn Hl. eexists. split; [apply prepareTask_in_tree; eassumption|].
  simpl. split; [|apply diffed_command].
  apply Forall_lookup. intros j c' Hj.
  rewrite list_lookup_imap in Hj.
  destruct (commands tsk !! j) as [c|] eqn:Hc; [|discriminate].
  simpl in Hj. injection Hj as <-.
  unfold matchesAt.
  rewrite lookup_app_l
    by (rewrite length_map; eapply lookup_lt_Some; exact Hc).
  rewrite list_lookup_fmap, Hc. simpl.
  rewrite String.eqb_refl. reflexivity.
Qed.

Lemma prepareTask_unchanged_all_cached_witness :
  let b := Sim.build "root" ["echo hello"; "echo middle"] [] in
  let tsk := {| name := "base";
                commands := map Sim.entry ["echo hello"; "echo middle"];
                started := 0 |} in
  exists t',
    prepareTask Sim.ukCACHEDIR SHA256.Sum b tsk Sim.cachedTree [] = (Ok t', [], [])
    /\ Forall (fun c => cached c = true) (commands t')
    /\ map command (commands t') = map command (commands tsk).
Proof.
  intros b tsk.
  apply (prepareTask_unchanged_all_cached Sim.ukCACHEDIR SHA256.Sum b tsk
           Sim.cachedTree [hex (SHA256.Sum "echo world")] []);
    [discriminate | vm_compute; reflexivity].
Defined.

(** A task with an empty name aborts the preparation where it stands: the
    tasks before it are prepared, then the error that the cache key must not
    be empty is returned, and nothing is sent to the target for that task or
    for the tasks after it. *)
Theorem prepareTasks_empty_name_aborts {H : Type} (ukCACHEDIR : string)
    (sha256_Sum : string -> string) (build : Build H)
    (ct : gmap string (list string)) (t : task) (pre post pre' : list task)
    (h h1 : H) (evs : list (Event H)) :
  name t = EmptyString ->
  prepareTasks ukCACHEDIR sha256_Sum build pre ct h = (Ok pre', h1, evs) ->
  prepareTasks ukCACHEDIR sha256_Sum build (pre ++ t :: post) ct h
  = (Err ErrCacheKeyEmpty, h1, evs).
Proof.
  intros Hn. revert pre' h h1 evs.
  induction pre as [|a pre IH]; intros pre' h h1 evs Hp.
  - injection Hp as <- <- <-. simpl. unfold bind, prepareTask.
    rewrite Hn. reflexivity.
  - simpl in *. unfold bind at 1. unfold bind at 1 in Hp.
    destruct (prepareTask ukCACHEDIR sha256_Sum build a ct h)
      as [[[a'|e] ha] eva]; [|discriminate].
    unfold bind at 1 in Hp.
    destruct (prepareTasks ukCACHEDIR sha256_Sum build pre ct ha)
      as [[[p'|e] hb] evb] eqn:Hpre; [|discriminate].
    unfold ret in Hp. injection Hp as <- <- <-.
    unfold bind at 1.
    rewrite (IH p' ha hb evb Hpre), app_nil_r. reflexivity.
Qed.

Lemma prepareTasks_empty_name_aborts_witness :
  let b := Sim.build "root" [] [] in
  let unnamed := {| name := EmptyString; commands := [Sim.entry "echo lost"];
                    started := 0 |} in
  prepareTasks Sim.ukCACHEDIR SHA256.Sum b
    ([Sim.changedTask] ++ unnamed :: [Sim.changedTask]) Sim.cachedTree []
  = (Err ErrCacheKeyEmpty, [], []).
Proof.
  intros b unnamed.
  eapply (prepareTasks_empty_name_aborts Sim.ukCACHEDIR SHA256.Sum b
            Sim.cachedTree unnamed [Sim.changedTask] [Sim.changedTask]);
    [reflexivity | vm_compute; reflexivity].
Defined.

(** ** The checksum tree *)

Section Tree.

Variable ukCACHEDIR : string.
Variables TrimSpace Dir : string -> string.

Local Abbreviation parse := (parseChecksumLines ukCACHEDIR TrimSpace Dir).
Local Abbreviation entry := (markerEntry ukCACHEDIR TrimSpace Dir).
Local Abbreviation entries := (markerEntries ukCACHEDIR TrimSpace Dir).

(** One step of the loop, by what the line contributes. *)
Lemma parse_cons (l : string) (lines : list string)
    (ct : gmap string (list string)) :
  parse (l :: lines) ct
  = match entry l with
    | None => parse lines ct
    | Some (pkgname, checksum) =>
        if (String.length checksum =? 64)%nat
        then parse lines
               (<[pkgname := (default [] (ct !! pkgname) ++ [checksum])%list]> ct)
        else Err (ErrInvalidChecksum checksum pkgname)
    end.
Proof.
  simpl. unfold markerEntry.
  destruct (String.eqb (TrimSpace l) EmptyString || negb (HasSuffix (TrimSpace l) ".done"));
    [reflexivity|].
  destruct (String.length (TrimSuffix (Base (TrimSpace l)) ".done") =? 64)%nat;
    reflexivity.
Qed.

Lemma corruptLine_entry (l : string) :
  corruptLine TrimSpace l
  = match entry l with
    | None => false
    | Some (_, checksum) => negb (String.length checksum =? 64)%nat
    end.
Proof.
  unfold corruptLine, markerEntry.
  destruct (String.eqb (TrimSpace l) EmptyString); simpl; [reflexivity|].
  destruct (HasSuffix (TrimSpace l) ".done"); reflexivity.
Qed.

Lemma parse_wellFormed (lines : list string) (ct ct' : gmap string (list string)) :
  parse lines ct = Ok ct' -> wellFormedTree ct -> wellFormedTree ct'.
Proof.
  revert ct. induction lines as [|l lines IH]; intros ct Hp Hwf.
  - injection Hp as <-. exact Hwf.
  - rewrite parse_cons in Hp.
    destruct (entry l) as [[pkgname checksum]|]; [|eapply IH; eassumption].
    destruct (Nat.eqb_spec (String.length checksum) 64) as [Hlen|_];
      [|discriminate].
    eapply IH; [exact Hp|].
    intros k x Hk. destruct (decide (pkgname = k)) as [->|Hne].
    + rewrite lookup_insert_eq in Hk. injection Hk as <-. split.
      * destruct (default [] (ct !! k)); discriminate.
      * apply Forall_app. split; [|repeat constructor; exact Hlen].
        destruct (ct !! k) as [y|] eqn:Hy; simpl; [|constructor].
        apply (Hwf k y Hy).
    + rewrite lookup_insert_ne in Hk by exact Hne. apply (Hwf k x Hk).
Qed.

Lemma checksumsOf_cons (k : string) (e : string * string)
    (es : list (string * string)) :
  checksumsOf k (e :: es)
  = ((if String.eqb (fst e) k then [snd e] else []) ++ checksumsOf k es)%list.
Proof.
  unfold checksumsOf. simpl. destruct (String.eqb (fst e) k); reflexivity.
Qed.

(** When no line of the read is corrupt, the loop of [buildChecksumTree]
    succeeds and appends, for every task, the checksums of the task's lines
    to the task's list in the order of the lines: lines of different tasks
    may be interleaved, blank lines and lines that do not end in [.done] add
    nothing. *)
Theorem parseChecksumLines_in_order (lines : list string)
    (ct : gmap string (list string)) :
  existsb (corruptLine TrimSpace) lines = false ->
  exists ct',
    parse lines ct = Ok ct'
    /\ forall k,
         default [] (ct' !! k)
         = (default [] (ct !! k) ++ checksumsOf k (entries lines))%list.
Proof.
  revert ct. induction lines as [|l lines IH]; intros ct Hc.
  - exists ct. split; [reflexivity|]. intros k.
    unfold checksumsOf. simpl. rewrite app_nil_r. reflexivity.
  - simpl in Hc. apply orb_false_iff in Hc as [Hl Hc].
    rewrite corruptLine_entry in Hl. rewrite parse_cons.
    unfold markerEntries. simpl flat_map. fold (entries lines).
    destruct (entry l) as [[pkgname checksum]|].
    + apply negb_false_iff in Hl. rewrite Hl.
      destruct (IH (<[pkgname := (default [] (ct !! pkgname) ++ [checksum])%list]> ct) Hc)
        as (ct' & Hp & Hk).
      exists ct'. split; [exact Hp|]. intros k. rewrite Hk.
      change ([(pkgname, checksum)] ++ entries lines)%list
        with ((pkgname, checksum) :: entries lines).
      rewrite checksumsOf_cons. simpl fst; simpl snd.
      destruct (String.eqb_spec pkgname k) as [->|Hne].
      * rewrite lookup_insert_eq. simpl. rewrite <- app_assoc. reflexivity.
      * rewrite lookup_insert_ne by exact Hne. reflexivity.
    + destruct (IH ct Hc) as (ct' & Hp & Hk). exists ct'. split; assumption.
Qed.

Lemma parse_no_marker (lines : list string) (ct : gmap string (list string)) :
  forallb (fun l => negb (HasSuffix (TrimSpace l) ".done")) lines = true ->
  parse lines ct = Ok ct.
Proof.
  induction lines as [|l lines IH]; intros Hall; [reflexivity|].
  simpl in Hall. apply andb_true_iff in Hall as [Hl Hall].
  simpl. rewrite Hl, orb_true_r. apply IH. exact Hall.
Qed.

End Tree.

(** Every checksum tree [buildChecksumTree] returns is well formed: each
    task it lists has at least one checksum, and every checksum has exactly
    64 characters. *)
Theorem buildChecksumTree_wellFormed {H : Type} (ukCACHEDIR : string)
    (TrimSpace Dir : string -> string) (build : Build H) (h : H)
    (ct : gmap string (list string)) :
  outcomeOf (buildChecksumTree ukCACHEDIR TrimSpace Dir build h) = Ok ct ->
  forall k l,
    ct !! k = Some l ->
    l <> [] /\ Forall (fun c => String.length c = 64) l.
Proof.
  unfold buildChecksumTree, bind, prepareInternalCommand, prepareCommand,
    execRun, outcomeOf.
  destruct (Command (target build) _ h) as [[e|] h1]; [discriminate|].
  destruct (ExecRun (target build) _ h1) as [[[[e|] out] err] h2];
    [discriminate|].
  destruct (parseChecksumLines ukCACHEDIR TrimSpace Dir _ ∅) as [ct0|e] eqn:Hp;
    [|discriminate].
  simpl. intros Heq. injection Heq as <-.
  apply (parse_wellFormed ukCACHEDIR TrimSpace Dir _ ∅ ct0 Hp).
  intros k l Hk. rewrite lookup_empty in Hk. discriminate.
Qed.

Lemma buildChecksumTree_wellFormed_witness :
  let b := Sim.build "root" [] [] in
  let h : Sim.Host :=
    [ (None,
       "/var/lib/urknall/base/584a331fd6b02dcb1ecbe2eba731f609a2e1e3dac0bb73ae998dfad14c309a77.done"
       ++ newline ++
       "/var/lib/urknall/base/e13c5f7dcd6a1305f4ede515aaf6f3e286abec60b0fd452d568f422cfbb2be82.done"
       ++ newline, EmptyString) ] in
  let ct : gmap string (list string) :=
    {[ "base" := [ hex (SHA256.Sum "echo hello"); hex (SHA256.Sum "echo world") ] ]} in
  outcomeOf (buildChecksumTree Sim.ukCACHEDIR Sim.TrimSpace Sim.Dir b h) = Ok ct
  /\ forall k l,
       ct !! k = Some l ->
       l <> [] /\ Forall (fun c => String.length c = 64) l.
Proof.
  intros b h ct.
  assert (Hok : outcomeOf (buildChecksumTree Sim.ukCACHEDIR Sim.TrimSpace
                             Sim.Dir b h) = Ok ct)
    by (vm_compute; reflexivity).
  split; [exact Hok|].
  apply (buildChecksumTree_wellFormed Sim.ukCACHEDIR Sim.TrimSpace Sim.Dir b h
           ct Hok).
Defined.

Lemma parseChecksumLines_in_order_witness :
  let a := String.string_of_list_ascii (repeat "a"%char 64) in
  let b := String.string_of_list_ascii (repeat "b"%char 64) in
  let c := String.string_of_list_ascii (repeat "c"%char 64) in
  let lines :=
    [ "/var/lib/urknall/base/" ++ a ++ ".done"; EmptyString;
      "/var/lib/urknall/nginx/" ++ b ++ ".done";
      "ls: cannot access";
      "/var/lib/urknall/base/" ++ c ++ ".done" ] in
  exists ct',
    parseChecksumLines Sim.ukCACHEDIR Sim.TrimSpace Sim.Dir lines ∅ = Ok ct'
    /\ forall k,
         default [] (ct' !! k)
         = (default [] ((∅ : gmap string (list string)) !! k)
            ++ checksumsOf k
                 (markerEntries Sim.ukCACHEDIR Sim.TrimSpace Sim.Dir lines))%list.
Proof.
  intros a b c lines.
  apply (parseChecksumLines_in_order Sim.ukCACHEDIR Sim.TrimSpace Sim.Dir lines ∅).
  vm_compute. reflexivity.
Defined.

Example parseChecksumLines_interleaved :
  let a := String.string_of_list_ascii (repeat "a"%char 64) in
  let b := String.string_of_list_ascii (repeat "b"%char 64) in
  let c := String.string_of_list_ascii (repeat "c"%char 64) in
  parseChecksumLines Sim.ukCACHEDIR Sim.TrimSpace Sim.Dir
    [ "/var/lib/urknall/base/" ++ a ++ ".done"; EmptyString;
      "/var/lib/urknall/nginx/" ++ b ++ ".done";
      "ls: cannot access";
      "/var/lib/urknall/base/" ++ c ++ ".done" ] ∅
  = Ok (<["base" := [a; c]]> (<["nginx" := [b]]> ∅)).
Proof. vm_compute. reflexivity. Qed.

(** The remote read of [buildChecksumTree], when its command could be
    created: if running it fails, the error carries the error of the run and
    what the command wrote to stdout and stderr, and nothing is parsed; if it
    succeeds and no line of the output ends in [.done] (the empty output of a
    host without cache), the tree is empty. *)
Theorem buildChecksumTree_read {H : Type} (ukCACHEDIR : string)
    (TrimSpace Dir : string -> string) (build : Build H) (h h1 : H) :
  let read := sudoPrefix build ++ heredoc (checksumTreeCommand ukCACHEDIR) in
  Command (target build) read h = (None, h1) ->
  match ExecRun (target build) read h1 with
  | ((Some e, out, err), h2) =>
      buildChecksumTree ukCACHEDIR TrimSpace Dir build h
      = (Err (ErrTreeRead e out err), h2, [EvCommand read; EvExecRun read])
  | ((None, out, _), h2) =>
      forallb (fun l => negb (HasSuffix (TrimSpace l) ".done"))
        (SplitByte (ascii_of_nat 10) out) = true ->
      buildChecksumTree ukCACHEDIR TrimSpace Dir build h
      = (Ok ∅, h2, [EvCommand read; EvExecRun read])
  end.
Proof.
  intros read Hcmd.
  unfold buildChecksumTree, bind, prepareInternalCommand, prepareCommand,
    execRun.
  fold read. rewrite Hcmd.
  destruct (ExecRun (target build) read h1) as [[[[e|] out] err] h2];
    [reflexivity|].
  intros Hno. rewrite (parse_no_marker ukCACHEDIR TrimSpace Dir _ ∅ Hno).
  reflexivity.
Qed.

Lemma buildChecksumTree_read_witness :
  let b := Sim.build "root" [] [] in
  let read := sudoPrefix b ++ heredoc (checksumTreeCommand Sim.ukCACHEDIR) in
  buildChecksumTree Sim.ukCACHEDIR Sim.TrimSpace Sim.Dir b []
  = (Ok ∅, [], [EvCommand read; EvExecRun read]).
Proof.
  intros b read.
  apply (buildChecksumTree_read Sim.ukCACHEDIR Sim.TrimSpace Sim.Dir b [] []
           eq_refl eq_refl).
Defined.

(** ** What [DryRun] and [Run] publish *)

Section Publishing.

Context {H : Type}.
Variables ukGROUP ukCACHEDIR : string.
Variable validateTemplate : Template -> option error.
Variable runner_run : remoteTaskRunner H -> H -> option error * H * list (Event H).
Variable Now : H -> Time.
Variables TrimSpace Dir sha256_Sum : string -> string.
Variable build : Build H.

Local Abbreviation dryEvents tsks :=
  (flat_map (fun t => map (dryRunEvent build (name t)) (commands t)) tsks).

Lemma dryRunCommands_events (taskName : string) (cmds : list commandWrapper)
    (h : H) :
  dryRunCommands build taskName cmds h
  = (Ok tt, h, map (dryRunEvent build taskName) cmds).
Proof.
  induction cmds as [|c cmds IH]; [reflexivity|].
  simpl. unfold bind at 1. unfold dryRunEvent at 1.
  destruct (cached c); unfold emit; rewrite IH; reflexivity.
Qed.

Lemma dryRunTasks_events (tsks : list task) (h : H) :
  dryRunTasks build tsks h = (Ok tt, h, dryEvents tsks).
Proof.
  induction tsks as [|t tsks IH]; [reflexivity|].
  simpl. unfold bind. rewrite dryRunCommands_events, IH. reflexivity.
Qed.

Lemma remoteRuns_dryEvents (tsks : list task) : remoteRuns (dryEvents tsks) = [].
Proof.
  induction tsks as [|t tsks IH]; [reflexivity|].
  simpl. rewrite remoteRuns_app, IH, app_nil_r.
  induction (commands t) as [|c cmds IHc]; [reflexivity|].
  simpl. unfold dryRunEvent at 1. destruct (cached c); exact IHc.
Qed.

Lemma buildCommands_all_cached (taskName checksumDir : string)
    (taskStarted : Time) (cmds : list commandWrapper) (h : H) :
  Forall (fun c => cached c = true) cmds ->
  buildCommands runner_run build taskName checksumDir taskStarted cmds h
  = (Ok tt, h, map (dryRunEvent build taskName) cmds).
Proof.
  induction 1 as [|c cmds Hc _ IH]; [reflexivity|].
  simpl. unfold dryRunEvent at 1. rewrite Hc.
  unfold bind, emit. rewrite IH. reflexivity.
Qed.

Lemma runTasks_all_cached (m : Message) (tsks : list task) (h : H) :
  Forall (fun t => Forall (fun c => cached c = true) (commands t)) tsks ->
  runTasks ukCACHEDIR runner_run Now build m tsks h
  = (Ok tt, h, (dryEvents tsks ++ [EvPublish m "finished"])%list).
Proof.
  induction 1 as [|t tsks Ht _ IH]; [reflexivity|].
  rewrite runTasks_cons. unfold buildTask.
  rewrite (buildCommands_all_cached _ _ _ _ _ Ht), IH.
  simpl. rewrite <- app_assoc. reflexivity.
Qed.

Lemma runTasks_closing (m : Message) (tsks : list task) (h : H) :
  exists middle,
    eventsOf (runTasks ukCACHEDIR runner_run Now build m tsks h)
    = (middle
       ++ [match outcomeOf (runTasks ukCACHEDIR runner_run Now build m tsks h) with
           | Ok _ => EvPublish m "finished"
           | Err e => EvPublishError m e
           end])%list.
Proof.
  revert h. induction tsks as [|t tsks IH]; intros h.
  - exists []. reflexivity.
  - rewrite runTasks_cons.
    destruct (buildTask ukCACHEDIR runner_run Now build t h)
      as [[[[]|e] h1] ev1].
    + destruct (IH h1) as [middle Hm].
      destruct (runTasks ukCACHEDIR runner_run Now build m tsks h1)
        as [[res h2] ev2].
      unfold eventsOf, outcomeOf in *. simpl in *.
      exists (ev1 ++ middle)%list. rewrite Hm, app_assoc. reflexivity.
    + exists ev1. reflexivity.
Qed.

End Publishing.

(** [DryRun] after a successful preparation: it always succeeds, leaves the
    host as the preparation left it, and publishes one message per entry, in
    the order of the tasks and of their entries: with the status cached and
    the key [finished] for a cached entry, with the status of a start and the
    key [executed] for the others.  The remote task runner is never run. *)
Theorem DryRun_publishes {H : Type}
    (ukGROUP ukCACHEDIR : string) (validateTemplate : Template -> option error)
    (TrimSpace Dir sha256_Sum : string -> string)
    (build : Build H) (h h1 : H) (pkg : packageImpl) (ev1 : list (Event H)) :
  prepareBuild ukGROUP ukCACHEDIR validateTemplate TrimSpace Dir sha256_Sum
    build h = (Ok pkg, h1, ev1) ->
  let published :=
    flat_map (fun t => map (dryRunEvent build (name t)) (commands t))
      (tasks pkg) in
  DryRun ukGROUP ukCACHEDIR validateTemplate TrimSpace Dir sha256_Sum build h
  = (Ok tt, h1, (ev1 ++ published)%list)
  /\ length published = length (flat_map commands (tasks pkg))
  /\ remoteRuns (ev1 ++ published)%list = [].
Proof.
  intros Hp published. split; [|split].
  - unfold DryRun, bind. rewrite Hp, dryRunTasks_events. reflexivity.
  - unfold published. induction (tasks pkg) as [|t tsks IH]; [reflexivity|].
    simpl. rewrite !length_app, length_map, IH. reflexivity.
  - rewrite remoteRuns_app. unfold published. rewrite remoteRuns_dryEvents.
    rewrite app_nil_r. apply (remoteRuns_internal build).
    pose proof (prepareBuild_internal ukGROUP ukCACHEDIR validateTemplate
                  TrimSpace Dir sha256_Sum build h) as [Hev _].
    rewrite Hp in Hev. exact Hev.
Qed.

Lemma DryRun_publishes_witness :
  let b := Sim.build "root" ["echo hello"; "echo world"] [] in
  exists pkg h1 ev1,
    prepareBuild Sim.ukGROUP Sim.ukCACHEDIR Sim.noValidation Sim.TrimSpace
      Sim.Dir SHA256.Sum b [] = (Ok pkg, h1, ev1)
    /\ let published :=
         flat_map (fun t => map (dryRunEvent b (name t)) (commands t))
           (tasks pkg) in
       DryRun Sim.ukGROUP Sim.ukCACHEDIR Sim.noValidation Sim.TrimSpace Sim.Dir
         SHA256.Sum b [] = (Ok tt, h1, (ev1 ++ published)%list)
       /\ length published = length (flat_map commands (tasks pkg))
       /\ remoteRuns (ev1 ++ published)%list = [].
Proof.
  intros b. eexists _, _, _. split; [reflexivity|].
  eapply (DryRun_publishes Sim.ukGROUP Sim.ukCACHEDIR Sim.noValidation
            Sim.TrimSpace Sim.Dir SHA256.Sum b []).
  reflexivity.
Defined.

Example DryRun_cold :
  map (fun ev => match ev with
                 | EvPublish m key => Some (MessageText m, ExecStatus m, key)
                 | _ => None
                 end)
    (skipn 6
       (eventsOf (DryRun Sim.ukGROUP Sim.ukCACHEDIR Sim.noValidation
                    Sim.TrimSpace Sim.Dir SHA256.Sum
                    (Sim.build "root" ["echo hello"; "echo world"] []) [])))
  = [ Some ("echo hello", StatusExecStart, "executed");
      Some ("echo world", StatusExecStart, "executed") ].
Proof. vm_compute. reflexivity. Qed.

(** [Run] after a successful preparation publishes the message of the
    provisioning with the key [started] first, and ends with the same
    message: with the key [finished] when it returns no error, as an error
    message carrying the error it returns otherwise.  Everything the tasks
    do lies between the two. *)
Theorem Run_started_then_closed {H : Type}
    (ukGROUP ukCACHEDIR : string) (validateTemplate : Template -> option error)
    (runner_run : remoteTaskRunner H -> H -> option error * H * list (Event H))
    (Now : H -> Time) (TrimSpace Dir sha256_Sum : string -> string)
    (build : Build H) (h h1 : H) (pkg : packageImpl) (ev1 : list (Event H)) :
  prepareBuild ukGROUP ukCACHEDIR validateTemplate TrimSpace Dir sha256_Sum
    build h = (Ok pkg, h1, ev1) ->
  let m := message MessageRunlistsProvision (hostname build) EmptyString in
  exists res h2 middle,
    Run ukGROUP ukCACHEDIR validateTemplate runner_run Now TrimSpace Dir
      sha256_Sum build h
    = (res, h2,
       (ev1 ++ EvPublish m "started" :: middle
        ++ [match res with
            | Ok _ => EvPublish m "finished"
            | Err e => EvPublishError m e
            end])%list).
Proof.
  intros Hp m.
  destruct (runTasks_closing ukCACHEDIR runner_run Now build m (tasks pkg) h1)
    as [middle Hm].
  destruct (runTasks ukCACHEDIR runner_run Now build m (tasks pkg) h1)
    as [[res h2] ev2] eqn:Hrun.
  unfold eventsOf, outcomeOf in Hm. simpl in Hm.
  exists res, h2, middle.
  unfold Run. unfold bind at 1. rewrite Hp.
  unfold bind, emit. fold m. rewrite Hrun, Hm. reflexivity.
Qed.

Lemma Run_started_then_closed_witness :
  let b := Sim.build "root" ["echo hello"; "exit 2"; "echo world"] [] in
  let m := message MessageRunlistsProvision (hostname b) EmptyString in
  exists pkg h1 ev1,
    prepareBuild Sim.ukGROUP Sim.ukCACHEDIR Sim.noValidation Sim.TrimSpace
      Sim.Dir SHA256.Sum b [] = (Ok pkg, h1, ev1)
    /\ exists res h2 middle,
         Run Sim.ukGROUP Sim.ukCACHEDIR Sim.noValidation Sim.runner Sim.clock
           Sim.TrimSpace Sim.Dir SHA256.Sum b []
         = (res, h2,
            (ev1 ++ EvPublish m "started" :: middle
             ++ [match res with
                 | Ok _ => EvPublish m "finished"
                 | Err e => EvPublishError m e
                 end])%list).
Proof.
  intros b m. eexists _, _, _. split; [reflexivity|].
  eapply (Run_started_then_closed Sim.ukGROUP Sim.ukCACHEDIR Sim.noValidation
            Sim.runner Sim.clock Sim.TrimSpace Sim.Dir SHA256.Sum b []).
  reflexivity.
Defined.

(** When every entry of the prepared package is cached, [Run] runs no
    remote task and leaves the host as the preparation left it: it succeeds,
    and between its messages [started] and [finished] it publishes, entry by
    entry in order, the messages with the status cached (what [DryRun]
    publishes for the same package). *)
Theorem Run_all_cached {H : Type}
    (ukGROUP ukCACHEDIR : string) (validateTemplate : Template -> option error)
    (runner_run : remoteTaskRunner H -> H -> option error * H * list (Event H))
    (Now : H -> Time) (TrimSpace Dir sha256_Sum : string -> string)
    (build : Build H) (h h1 : H) (pkg : packageImpl) (ev1 : list (Event H)) :
  prepareBuild ukGROUP ukCACHEDIR validateTemplate TrimSpace Dir sha256_Sum
    build h = (Ok pkg, h1, ev1) ->
  Forall (fun t => Forall (fun c => cached c = true) (commands t)) (tasks pkg) ->
  let m := message MessageRunlistsProvision (hostname build) EmptyString in
  let published :=
    flat_map (fun t => map (dryRunEvent build (name t)) (commands t))
      (tasks pkg) in
  Run ukGROUP ukCACHEDIR validateTemplate runner_run Now TrimSpace Dir
    sha256_Sum build h
  = (Ok tt, h1,
     (ev1 ++ EvPublish m "started" :: published ++ [EvPublish m "finished"])%list)
  /\ Forall (fun ev => match ev with
                       | EvPublish msg key =>
                           ExecStatus msg = StatusCached /\ key = "finished"
                       | _ => False
                       end) published.
Proof.
  intros Hp Hall m published. split.
  - unfold Run. unfold bind at 1. rewrite Hp.
    unfold bind, emit. fold m.
    rewrite (runTasks_all_cached ukCACHEDIR runner_run Now build m _ h1 Hall).
    reflexivity.
  - unfold published. induction Hall as [|t tsks Ht _ IH]; [constructor|].
    simpl. apply Forall_app. split; [|exact IH].
    induction Ht as [|c cmds Hc _ IHc]; [constructor|].
    simpl. constructor; [|exact IHc].
    unfold dryRunEvent. rewrite Hc. split; reflexivity.
Qed.

Lemma Run_all_cached_witness :
  let b := Sim.build "root" ["echo hello"; "echo world"] [] in
  let h : Sim.Host :=
    [ (None, EmptyString, EmptyString);
      (None,
       "/var/lib/urknall/base/584a331fd6b02dcb1ecbe2eba731f609a2e1e3dac0bb73ae998dfad14c309a77.done"
       ++ newline ++
       "/var/lib/urknall/base/e13c5f7dcd6a1305f4ede515aaf6f3e286abec60b0fd452d568f422cfbb2be82.done"
       ++ newline, EmptyString) ] in
  let pkg :=
    {| reference := Sim.templateOf ["echo hello"; "echo world"];
       tasks := [ {| name := "base";
                     commands := map setCached
                                   (map Sim.entry ["echo hello"; "echo world"]);
                     started := 0 |} ] |} in
  let m := message MessageRunlistsProvision (hostname b) EmptyString in
  let published :=
    flat_map (fun t => map (dryRunEvent b (name t)) (commands t)) (tasks pkg) in
  Run Sim.ukGROUP Sim.ukCACHEDIR Sim.noValidation Sim.runner Sim.clock
    Sim.TrimSpace Sim.Dir SHA256.Sum b h
  = (Ok tt, [],
     (eventsOf (prepareBuild Sim.ukGROUP Sim.ukCACHEDIR Sim.noValidation
                  Sim.TrimSpace Sim.Dir SHA256.Sum b h)
      ++ EvPublish m "started" :: published ++ [EvPublish m "finished"])%list)
  /\ Forall (fun ev => match ev with
                       | EvPublish msg key =>
                           ExecStatus msg = StatusCached /\ key = "finished"
                       | _ => False
                       end) published.
Proof.
  intros b h pkg m published.
  apply (Run_all_cached Sim.ukGROUP Sim.ukCACHEDIR Sim.noValidation Sim.runner
           Sim.clock Sim.TrimSpace Sim.Dir SHA256.Sum b h [] pkg).
  - vm_compute. reflexivity.
  - repeat constructor.
Defined.

(** [DryRun] never runs the remote task runner, whatever the template, the
    target and the state of the host: neither when the preparation fails nor
    when it succeeds. *)
Theorem DryRun_runs_no_remote_task {H : Type}
    (ukGROUP ukCACHEDIR : string) (validateTemplate : Template -> option error)
    (TrimSpace Dir sha256_Sum : string -> string) (build : Build H) (h : H) :
  remoteRuns
    (eventsOf (DryRun ukGROUP ukCACHEDIR validateTemplate TrimSpace Dir
                 sha256_Sum build h)) = [].
Proof.
  pose proof (prepareBuild_internal ukGROUP ukCACHEDIR validateTemplate
                TrimSpace Dir sha256_Sum build h) as [Hev _].
  unfold DryRun, bind.
  destruct (prepareBuild ukGROUP ukCACHEDIR validateTemplate TrimSpace Dir
              sha256_Sum build h) as [[[pkg|e] h1] ev1];
    unfold eventsOf in *; simpl in Hev.
  - rewrite dryRunTasks_events. simpl.
    rewrite remoteRuns_app, remoteRuns_dryEvents, app_nil_r.
    apply (remoteRuns_internal build). exact Hev.
  - simpl. apply (remoteRuns_internal build). exact Hev.
Qed.

(** ** The messages around a remote run *)

Section Bracket.

Context {H : Type}.
Variable runner_run : remoteTaskRunner H -> H -> option error * H * list (Event H).
Variable build : Build H.

Lemma buildCommands_bracket (taskName checksumDir : string) (taskStarted : Time)
    (cmds : list commandWrapper) (h : H)
    (before after : list (Event H)) (r : remoteTaskRunner H)
    (e : option error) (inner : list (Event H)) :
  eventsOf (buildCommands runner_run build taskName checksumDir taskStarted cmds h)
  = (before ++ EvRemoteTask r e inner :: after)%list ->
  exists c before' after',
    In c cmds /\ cached c = false
    /\ r = {| r_build := build; r_cmd := EmptyString; r_command := command c;
              r_dir := checksumDir; r_taskName := taskName;
              r_taskStarted := taskStarted |}
    /\ before
       = (before'
          ++ [EvPublish (withStatus (taskMessage build taskName c) StatusExecStart)
                "started"])%list
    /\ after
       = EvPublish
           (withStatus (withError (taskMessage build taskName c) e)
              StatusExecFinished) "finished" :: after'.
Proof.
  revert h before after.
  induction cmds as [|c cmds IH]; intros h before after Hev.
  - destruct before; discriminate Hev.
  - simpl in Hev. destruct (cached c) eqn:Hc.
    + unfold bind, emit in Hev.
      destruct (buildCommands runner_run build taskName checksumDir taskStarted
                  cmds h) as [[res h1] evs] eqn:Hb.
      unfold eventsOf in Hev. simpl in Hev.
      destruct before as [|b0 before]; [discriminate Hev|].
      injection Hev as <- Hev.
      destruct (IH h before after) as (c' & b' & a' & Hin & Hc' & Hr & Hb' & Ha').
      { rewrite Hb. exact Hev. }
      exists c', (EvPublish (withStatus (taskMessage build taskName c) StatusCached)
                    "finished" :: b'), a'.
      repeat split; try assumption; [right; exact Hin | rewrite Hb'; reflexivity].
    + unfold bind, emit, try, runRemote, fail in Hev.
      destruct (runner_run _ h) as [[[e0|] h1] inner0]; unfold eventsOf in Hev;
        simpl in Hev.
      * destruct before as [|b0 before]; [discriminate Hev|].
        injection Hev as <- Hev.
        destruct before as [|b1 before].
        -- injection Hev as <- <- <- <-.
           exists c, [], []. repeat split; try assumption. left; reflexivity.
        -- injection Hev as _ Hev.
           destruct before as [|b2 before]; [discriminate Hev|].
           injection Hev as _ Hev. destruct before; discriminate Hev.
      * destruct (buildCommands runner_run build taskName checksumDir taskStarted
                    cmds h1) as [[res h2] evs] eqn:Hb.
        simpl in Hev.
        destruct before as [|b0 before]; [discriminate Hev|].
        injection Hev as <- Hev.
        destruct before as [|b1 before].
        -- injection Hev as <- <- <- <-.
           exists c, [], evs. repeat split; try assumption. left; reflexivity.
        -- injection Hev as <- Hev.
           destruct before as [|b2 before]; [discriminate Hev|].
           injection Hev as <- Hev.
           destruct (IH h1 before after) as (c' & b' & a' & Hin & Hc' & Hr & Hb' & Ha').
           { rewrite Hb. exact Hev. }
           eexists c', (_ :: _ :: _ :: b'), a'.
           repeat split; try assumption; [right; exact Hin|].
           rewrite Hb'. reflexivity.
Qed.

End Bracket.

(** Every run of the remote task runner in [buildTask] is announced and
    reported: the event just before it is the message of a non-cached entry
    of the task with the status of a start and the key [started], the runner
    is the one of that entry's command (with the task's name, its checksum
    directory and its start time), and the event just after it is the same
    message with the status finished, the key [finished] and, as its error,
    the error the run returned. *)
Theorem buildTask_brackets_remote_runs {H : Type} (ukCACHEDIR : string)
    (runner_run : remoteTaskRunner H -> H -> option error * H * list (Event H))
    (Now : H -> Time) (build : Build H) (tsk : task) (h : H)
    (before after : list (Event H)) (r : remoteTaskRunner H)
    (e : option error) (inner : list (Event H)) :
  eventsOf (buildTask ukCACHEDIR runner_run Now build tsk h)
  = (before ++ EvRemoteTask r e inner :: after)%list ->
  exists c before' after',
    In c (commands tsk) /\ cached c = false
    /\ r = {| r_build := build; r_cmd := EmptyString; r_command := command c;
              r_dir := ukCACHEDIR ++ "/" ++ name tsk; r_taskName := name tsk;
              r_taskStarted := Now h |}
    /\ before
       = (before'
          ++ [EvPublish
                (withStatus (taskMessage build (name tsk) c) StatusExecStart)
                "started"])%list
    /\ after
       = EvPublish
           (withStatus (withError (taskMessage build (name tsk) c) e)
              StatusExecFinished) "finished" :: after'.
Proof.
  intros Hev.
  apply (buildCommands_bracket runner_run build (name tsk)
           (checksumDirOf ukCACHEDIR (name tsk)) (Now h) (commands tsk) h
           before after r e inner Hev).
Qed.

Lemma buildTask_brackets_remote_runs_witness :
  let b := Sim.build "root" [] [] in
  let tsk := {| name := "base"; commands := [Sim.entry "exit 2"]; started := 0 |} in
  let m := taskMessage b "base" (Sim.entry "exit 2") in
  let r := {| r_build := b; r_cmd := EmptyString;
              r_command := Sim.shell "exit 2";
              r_dir := "/var/lib/urknall/base"; r_taskName := "base";
              r_taskStarted := 0 |} in
  let e := Some (ErrExternal "exit status 2") in
  exists c before' after',
    In c (commands tsk) /\ cached c = false
    /\ r = {| r_build := b; r_cmd := EmptyString; r_command := command c;
              r_dir := Sim.ukCACHEDIR ++ "/" ++ name tsk; r_taskName := name tsk;
              r_taskStarted := Sim.clock [] |}
    /\ [@EvPublish Sim.Host (withStatus m StatusExecStart) "started"]
       = (before'
          ++ [EvPublish
                (withStatus (taskMessage b (name tsk) c) StatusExecStart)
                "started"])%list
    /\ [@EvPublish Sim.Host (withStatus (withError m e) StatusExecFinished)
          "finished"]
       = EvPublish
           (withStatus (withError (taskMessage b (name tsk) c) e)
              StatusExecFinished) "finished" :: after'.
Proof.
  intros b tsk m r e.
  apply (buildTask_brackets_remote_runs Sim.ukCACHEDIR Sim.runner Sim.clock b
           tsk [] _ _ r e []).
  reflexivity.
Defined.

(** ** The paths of the markers *)

Lemma string_length_app (a b : string) :
  String.length (a ++ b) = String.length a + String.length b.
Proof. induction a as [|c a IH]; simpl; [reflexivity|]. now rewrite IH. Qed.

Lemma substring_whole (s : string) : substring 0 (String.length s) s = s.
Proof. induction s as [|c s IH]; simpl; [reflexivity|]. now rewrite IH. Qed.

Lemma substring_app_l (a b : string) : substring 0 (String.length a) (a ++ b) = a.
Proof.
  induction a as [|c a IH]; simpl; [destruct b; reflexivity|]. now rewrite IH.
Qed.

Lemma substring_app_r (a b : string) :
  substring (String.length a) (String.length b) (a ++ b) = b.
Proof. induction a as [|c a IH]; simpl; [apply substring_whole | exact IH]. Qed.

Lemma HasSuffix_app (a suf : string) : HasSuffix (a ++ suf) suf = true.
Proof.
  unfold HasSuffix. rewrite string_length_app.
  replace (String.length a + String.length suf - String.length suf)
    with (String.length a) by lia.
  rewrite substring_app_r, String.eqb_refl.
  destruct (Nat.leb_spec (String.length suf) (String.length a + String.length suf));
    [reflexivity | lia].
Qed.

Lemma TrimSuffix_app (a suf : string) : TrimSuffix (a ++ suf) suf = a.
Proof.
  unfold TrimSuffix. rewrite HasSuffix_app, string_length_app.
  replace (String.length a + String.length suf - String.length suf)
    with (String.length a) by lia.
  apply substring_app_l.
Qed.

Lemma prefix_app (p s : string) : String.prefix p (p ++ s) = true.
Proof.
  induction p as [|c p IH]; simpl; [destruct s; reflexivity|].
  destruct (ascii_dec c c) as [_|Hne]; [exact IH | contradiction].
Qed.

Lemma TrimPrefix_app (p s : string) : TrimPrefix (p ++ s) p = s.
Proof.
  unfold TrimPrefix, HasPrefix. rewrite prefix_app, string_length_app.
  replace (String.length p + String.length s - String.length p)
    with (String.length s) by lia.
  apply substring_app_r.
Qed.

Lemma stripTrailingSlashes_done (s : string) :
  stripTrailingSlashes (s ++ ".done") = s ++ ".done".
Proof.
  induction s as [|c s IH]; [reflexivity|].
  simpl. rewrite IH. destruct s; reflexivity.
Qed.

Lemma list_ascii_app (a b : string) :
  list_ascii_of_string (a ++ b)
  = (list_ascii_of_string a ++ list_ascii_of_string b)%list.
Proof. induction a as [|c a IH]; simpl; [reflexivity|]. now rewrite IH. Qed.

Lemma lastElement_app (d n : string) :
  existsb isSlash (list_ascii_of_string n) = false ->
  lastElement (d ++ "/" ++ n) = n.
Proof.
  intros Hn. induction d as [|c d IH].
  - change (lastElement (String "/" n) = n).
    cbn [lastElement]. rewrite Hn. reflexivity.
  - change (String c d ++ "/" ++ n) with (String c (d ++ "/" ++ n)).
    cbn [lastElement].
    rewrite list_ascii_app, existsb_app. simpl existsb at 2.
    rewrite orb_true_r. exact IH.
Qed.

Lemma string_app_assoc (a b c : string) : (a ++ b) ++ c = a ++ b ++ c.
Proof.
  induction a as [|x a IH]; [reflexivity|].
  change (String x ((a ++ b) ++ c) = String x (a ++ b ++ c)). now rewrite IH.
Qed.

Lemma Base_marker (d checksum : string) :
  existsb isSlash (list_ascii_of_string checksum) = false ->
  Base (d ++ "/" ++ checksum ++ ".done") = checksum ++ ".done".
Proof.
  intros Hc. unfold Base.
  assert (Hne : exists c rest, d ++ "/" ++ checksum ++ ".done" = String c rest).
  { destruct d; simpl; eauto. }
  destruct Hne as (c & rest & Hne). rewrite Hne, <- Hne.
  change (d ++ "/" ++ checksum ++ ".done")
    with (d ++ ("/" ++ checksum) ++ ".done") at 1.
  rewrite <- string_app_assoc, stripTrailingSlashes_done, string_app_assoc.
  change (d ++ ("/" ++ checksum) ++ ".done")
    with (d ++ "/" ++ checksum ++ ".done").
  rewrite lastElement_app
    by (rewrite list_ascii_app, existsb_app, Hc; reflexivity).
  destruct checksum; reflexivity.
Qed.

(** A line of the form [CACHE/<task>/<checksum>.done] that
    [strings.TrimSpace] leaves alone, whose checksum holds no path
    separator, is read back as that checksum for the directory part of
    [<task>/<checksum>.done]: the loop of [buildChecksumTree] appends the
    checksum to the list of that task when it has 64 characters, and fails
    with that very checksum otherwise. *)
Theorem marker_line_read_back (ukCACHEDIR : string)
    (TrimSpace Dir : string -> string) (taskName checksum : string)
    (rest : list string) (ct : gmap string (list string)) :
  let line := ukCACHEDIR ++ "/" ++ taskName ++ "/" ++ checksum ++ ".done" in
  let pkgname := Dir (taskName ++ "/" ++ checksum ++ ".done") in
  TrimSpace line = line ->
  existsb isSlash (list_ascii_of_string checksum) = false ->
  parseChecksumLines ukCACHEDIR TrimSpace Dir (line :: rest) ct
  = if (String.length checksum =? 64)%nat
    then parseChecksumLines ukCACHEDIR TrimSpace Dir rest
           (<[pkgname := (default [] (ct !! pkgname) ++ [checksum])%list]> ct)
    else Err (ErrInvalidChecksum checksum pkgname).
Proof.
  intros line pkgname Htrim Hc.
  assert (E1 : line = (ukCACHEDIR ++ "/") ++ taskName ++ "/" ++ checksum ++ ".done").
  { unfold line. rewrite string_app_assoc. reflexivity. }
  assert (E2 : line = (ukCACHEDIR ++ "/" ++ taskName) ++ "/" ++ checksum ++ ".done").
  { unfold line. rewrite !string_app_assoc. reflexivity. }
  assert (E3 : line = ((ukCACHEDIR ++ "/" ++ taskName) ++ "/" ++ checksum) ++ ".done").
  { rewrite E2. change ("/" ++ checksum ++ ".done") with (("/" ++ checksum) ++ ".done").
    rewrite <- string_app_assoc. reflexivity. }
  assert (Hne : String.eqb line EmptyString = false).
  { rewrite E1. destruct ukCACHEDIR; reflexivity. }
  assert (Hsuf : HasSuffix line ".done" = true).
  { rewrite E3. apply HasSuffix_app. }
  assert (Hbase : TrimSuffix (Base line) ".done" = checksum).
  { rewrite E2, (Base_marker _ checksum Hc). apply TrimSuffix_app. }
  assert (Hpre : TrimPrefix line (ukCACHEDIR ++ "/")
                 = taskName ++ "/" ++ checksum ++ ".done").
  { rewrite E1. apply TrimPrefix_app. }
  cbn [parseChecksumLines]. rewrite Htrim, Hne, Hsuf, Hbase, Hpre. simpl orb.
  cbv iota. fold pkgname.
  destruct (String.length checksum =? 64)%nat; reflexivity.
Qed.

Lemma marker_line_read_back_witness :
  let checksum := hex (SHA256.Sum "echo hello") in
  let line := Sim.ukCACHEDIR ++ "/" ++ "base" ++ "/" ++ checksum ++ ".done" in
  let pkgname := Sim.Dir ("base" ++ "/" ++ checksum ++ ".done") in
  parseChecksumLines Sim.ukCACHEDIR Sim.TrimSpace Sim.Dir (line :: []) ∅
  = if (String.length checksum =? 64)%nat
    then parseChecksumLines Sim.ukCACHEDIR Sim.TrimSpace Sim.Dir []
           (<[pkgname := (default [] ((∅ : gmap string (list string)) !! pkgname)
                          ++ [checksum])%list]> ∅)
    else Err (ErrInvalidChecksum checksum pkgname).
Proof.
  intros checksum line pkgname.
  apply (marker_line_read_back Sim.ukCACHEDIR Sim.TrimSpace Sim.Dir "base"
           checksum [] ∅); vm_compute; reflexivity.
Defined.

(** ** Fingerprints do not lose information *)

Lemma unhexDigit_hexDigit (n : nat) : n < 16 -> unhexDigit (hexDigit n) = n.
Proof.
  intros Hn. do 16 (destruct n as [|n]; [reflexivity|]). lia.
Qed.

Lemma hex_cons (x : ascii) (a : string) :
  hex (String x a)
  = String (hexDigit (Nat.div (nat_of_ascii x) 16))
      (String (hexDigit (Nat.modulo (nat_of_ascii x) 16)) (hex a)).
Proof. reflexivity. Qed.

Lemma hex_injective (a b : string) : hex a = hex b -> a = b.
Proof.
  revert b. induction a as [|x a IH]; intros [|y b] Heq;
    try discriminate; [reflexivity|].
  rewrite !hex_cons in Heq.
  injection Heq as Hhi Hlo Hrest.
  pose proof (nat_ascii_bounded x) as Hx.
  pose proof (nat_ascii_bounded y) as Hy.
  apply (f_equal unhexDigit) in Hhi, Hlo.
  change (unhexDigit (hexDigit (Nat.div (nat_of_ascii x) 16))
          = unhexDigit (hexDigit (Nat.div (nat_of_ascii y) 16))) in Hhi.
  change (unhexDigit (hexDigit (Nat.modulo (nat_of_ascii x) 16))
          = unhexDigit (hexDigit (Nat.modulo (nat_of_ascii y) 16))) in Hlo.
  rewrite !unhexDigit_hexDigit in Hhi
    by (apply Nat.Div0.div_lt_upper_bound; lia).
  rewrite !unhexDigit_hexDigit in Hlo by (apply Nat.mod_upper_bound; lia).
  assert (Hn : nat_of_ascii x = nat_of_ascii y).
  { rewrite (Nat.div_mod_eq (nat_of_ascii x) 16),
      (Nat.div_mod_eq (nat_of_ascii y) 16), Hhi, Hlo. reflexivity. }
  f_equal; [|apply IH; exact Hrest].
  rewrite <- (ascii_nat_embedding x), <- (ascii_nat_embedding y), Hn.
  reflexivity.
Qed.

(** Printing the digest in hexadecimal loses nothing: two commands without
    a checksum of their own have the same fingerprint exactly when the
    digests of their shell strings are the same. *)
Theorem fingerprint_equal_iff_digest_equal (sha256_Sum : string -> string)
    (shell1 shell2 : string) (logging1 logging2 : option string) :
  commandChecksum sha256_Sum (cmd.mkCommand shell1 None logging1)
  = commandChecksum sha256_Sum (cmd.mkCommand shell2 None logging2)
  <-> sha256_Sum shell1 = sha256_Sum shell2.
Proof.
  unfold commandChecksum. simpl. split.
  - intros Heq. injection Heq as Heq. apply hex_injective. exact Heq.
  - intros ->. reflexivity.
Qed.

(** ** What [Add] leaves alone *)

(** Whenever [Add] returns, the runlist has exactly one more entry, at the
    end, after the entries it had, in their order; its package and name are
    unchanged; the store has the objects it had, plus at most one new one;
    and no object is modified except the one the added pointer points to. *)
Theorem Add_appends_one_entry (Pkg : Type)
    (MustRenderTemplate : string -> Pkg -> option string)
    (rl rl' : Runlist.Runlist Pkg) (store store' : list Runlist.object)
    (v : Runlist.value) :
  Runlist.Add Pkg MustRenderTemplate rl store v = Runlist.Done (rl', store') ->
  (exists entry,
      Runlist.commands Pkg rl' = (Runlist.commands Pkg rl ++ [entry])%list)
  /\ Runlist.pkg Pkg rl' = Runlist.pkg Pkg rl
  /\ Runlist.name Pkg rl' = Runlist.name Pkg rl
  /\ length store <= length store' <= S (length store)
  /\ forall q o,
       store !! q = Some o ->
       v <> Runlist.PtrShellCommand q -> v <> Runlist.PtrFileCommand q ->
       store' !! q = Some o.
Proof.
  destruct v as [p|p|t|c|path content|typeName [|]]; simpl;
    unfold Runlist.addShellCommand, Runlist.addFileCommand; try discriminate.
  - destruct (store !! p) as [[c|path content]|]; try discriminate.
    destruct (MustRenderTemplate c (Runlist.pkg Pkg rl)); [|discriminate].
    intros Heq. injection Heq as <- <-. simpl.
    rewrite length_insert.
    repeat split; eauto; try lia.
    intros q o Hq Hne _. apply list_lookup_insert_Some. right.
    split; [congruence | exact Hq].
  - destruct (store !! p) as [[c|path content]|]; try discriminate.
    destruct (MustRenderTemplate content (Runlist.pkg Pkg rl)); [|discriminate].
    intros Heq. injection Heq as <- <-. simpl.
    rewrite length_insert.
    repeat split; eauto; try lia.
    intros q o Hq _ Hne. apply list_lookup_insert_Some. right.
    split; [congruence | exact Hq].
  - rewrite lookup_end.
    destruct (MustRenderTemplate t (Runlist.pkg Pkg rl)); [|discriminate].
    rewrite insert_end.
    intros Heq. injection Heq as <- <-. simpl.
    rewrite length_app. simpl.
    repeat split; eauto; try lia.
    intros q o Hq _ _. rewrite lookup_app_l; [exact Hq|].
    eapply lookup_lt_Some. exact Hq.
  - intros Heq. injection Heq as <- <-. simpl.
    repeat split; eauto; lia.
Qed.

Lemma Add_appends_one_entry_witness :
  let rl := {| Runlist.commands := [Runlist.Other "*customCommand" true];
               Runlist.pkg := Sim.mkSomePackage "something" "1";
               Runlist.name := "pkg" |} in
  let store := [Runlist.ShellCommand "untouched {{ .SField }}";
                Runlist.FileCommand "/tmp/foo" "{{ .SField }} = {{ .IField }}"] in
  let rl' := {| Runlist.commands := [Runlist.Other "*customCommand" true;
                                     Runlist.PtrFileCommand 1];
                Runlist.pkg := Sim.mkSomePackage "something" "1";
                Runlist.name := "pkg" |} in
  let store' := [Runlist.ShellCommand "untouched {{ .SField }}";
                 Runlist.FileCommand "/tmp/foo" "something = 1"] in
  (exists entry,
      Runlist.commands Sim.somePackage rl'
      = (Runlist.commands Sim.somePackage rl ++ [entry])%list)
  /\ Runlist.pkg Sim.somePackage rl' = Runlist.pkg Sim.somePackage rl
  /\ Runlist.name Sim.somePackage rl' = Runlist.name Sim.somePackage rl
  /\ length store <= length store' <= S (length store)
  /\ forall q o,
       store !! q = Some o ->
       Runlist.PtrFileCommand 1 <> Runlist.PtrShellCommand q ->
       Runlist.PtrFileCommand 1 <> Runlist.PtrFileCommand q ->
       store' !! q = Some o.
Proof.
  intros rl store rl' store'.
  apply (Add_appends_one_entry Sim.somePackage Sim.render rl rl' store store'
           (Runlist.PtrFileCommand 1)).
  reflexivity.
Defined.

(** The runlist holds references, not copies: a shell command added twice
    by the same pointer gives two entries with that pointer, its template is
    expanded at each [Add] (the second time on the result of the first), and
    both entries point to the one object that holds the last expansion. *)
Theorem Add_same_pointer_twice (Pkg : Type)
    (MustRenderTemplate : string -> Pkg -> option string)
    (rl : Runlist.Runlist Pkg) (store : list Runlist.object) (p : nat)
    (c c1 c2 : string) :
  store !! p = Some (Runlist.ShellCommand c) ->
  MustRenderTemplate c (Runlist.pkg Pkg rl) = Some c1 ->
  MustRenderTemplate c1 (Runlist.pkg Pkg rl) = Some c2 ->
  exists rl1 store1 rl2,
    Runlist.Add Pkg MustRenderTemplate rl store (Runlist.PtrShellCommand p)
    = Runlist.Done (rl1, store1)
    /\ store1 !! p = Some (Runlist.ShellCommand c1)
    /\ Runlist.Add Pkg MustRenderTemplate rl1 store1 (Runlist.PtrShellCommand p)
       = Runlist.Done (rl2, <[p := Runlist.ShellCommand c2]> store)
    /\ Runlist.commands Pkg rl2
       = (Runlist.commands Pkg rl
          ++ [Runlist.PtrShellCommand p; Runlist.PtrShellCommand p])%list.
Proof.
  intros Hp H1 H2.
  pose proof (lookup_lt_Some _ _ _ Hp) as Hlt.
  eexists _, _, _. split; [|split; [|split]].
  - simpl. unfold Runlist.addShellCommand. rewrite Hp, H1. reflexivity.
  - apply list_lookup_insert_eq. exact Hlt.
  - simpl. unfold Runlist.addShellCommand.
    rewrite list_lookup_insert_eq by exact Hlt.
    simpl. rewrite H2, list_insert_insert_eq. reflexivity.
  - simpl. rewrite <- app_assoc. reflexivity.
Qed.

Lemma Add_same_pointer_twice_witness :
  let rl := {| Runlist.commands := [];
               Runlist.pkg := Sim.mkSomePackage "something" "1";
               Runlist.name := "pkg" |} in
  let store := [Runlist.ShellCommand "echo {{ .SField }} {{ .IField }}"] in
  exists rl1 store1 rl2,
    Runlist.Add Sim.somePackage Sim.render rl store (Runlist.PtrShellCommand 0)
    = Runlist.Done (rl1, store1)
    /\ store1 !! 0 = Some (Runlist.ShellCommand "echo something 1")
    /\ Runlist.Add Sim.somePackage Sim.render rl1 store1 (Runlist.PtrShellCommand 0)
       = Runlist.Done (rl2, <[0 := Runlist.ShellCommand "echo something 1"]> store)
    /\ Runlist.commands Sim.somePackage rl2
       = (Runlist.commands Sim.somePackage rl
          ++ [Runlist.PtrShellCommand 0; Runlist.PtrShellCommand 0])%list.
Proof.
  intros rl store.
  apply (Add_same_pointer_twice Sim.somePackage Sim.render rl store 0
           "echo {{ .SField }} {{ .IField }}" "echo something 1"
           "echo something 1");
    reflexivity.
Defined.

(** ** The package through the preparation *)

Section KeepsPackage.

Context {H : Type}.
Variable ukCACHEDIR : string.
Variable sha256_Sum : string -> string.
Variable build : Build H.

Lemma prepareTasks_keeps (tsks tsks' : list task)
    (ct : gmap string (list string)) (h : H) :
  outcomeOf (prepareTasks ukCACHEDIR sha256_Sum build tsks ct h) = Ok tsks' ->
  map name tsks' = map name tsks
  /\ map (fun t => map command (commands t)) tsks'
     = map (fun t => map command (commands t)) tsks.
Proof.
  revert tsks' h. induction tsks as [|t tsks IH]; intros tsks' h Hok.
  - injection Hok as <-. split; reflexivity.
  - simpl in Hok. unfold bind at 1 in Hok.
    pose proof (prepareTask_result ukCACHEDIR sha256_Sum build t) as Ht.
    specialize (fun t' => Ht t' ct h).
    destruct (prepareTask ukCACHEDIR sha256_Sum build t ct h)
      as [[[t'|e] h1] ev1]; [|discriminate].
    destruct (Ht t' eq_refl) as [l ->].
    unfold bind at 1 in Hok.
    specialize (IH) with (h := h1).
    destruct (prepareTasks ukCACHEDIR sha256_Sum build tsks ct h1)
      as [[[rest|e] h2] ev2]; [|discriminate].
    destruct (IH rest eq_refl) as [Hn Hc].
    unfold ret, outcomeOf in Hok. simpl in Hok. injection Hok as <-.
    simpl. rewrite Hn, Hc.
    destruct (diffed_command sha256_Sum l (commands t)) as (-> & _ & _).
    split; reflexivity.
Qed.

End KeepsPackage.

(** A successful [prepareBuild] returns the package the template rendered:
    it refers to the template of the build, and it has the tasks the
    template added, with their names and their commands, all in the order
    they were added.  The preparation only sets [cached] flags. *)
Theorem prepareBuild_keeps_package {H : Type}
    (ukGROUP ukCACHEDIR : string) (validateTemplate : Template -> option error)
    (TrimSpace Dir sha256_Sum : string -> string)
    (build : Build H) (h : H) (pkg : packageImpl) :
  outcomeOf (prepareBuild ukGROUP ukCACHEDIR validateTemplate TrimSpace Dir
               sha256_Sum build h) = Ok pkg ->
  reference pkg = template build
  /\ map name (tasks pkg) = map name (Render (template build) [])
  /\ map (fun t => map command (commands t)) (tasks pkg)
     = map (fun t => map command (commands t)) (Render (template build) []).
Proof.
  unfold prepareBuild, renderTemplate.
  destruct (validateTemplate (template build)); [discriminate|].
  unfold bind at 1.
  destruct (prepareTarget ukGROUP ukCACHEDIR build h) as [[[[]|e] h1] ev1];
    [|discriminate].
  unfold bind at 1, try.
  destruct (buildChecksumTree ukCACHEDIR TrimSpace Dir build h1)
    as [[[ct|e] h2] ev2]; [|discriminate].
  unfold bind at 1. cbn [tasks reference].
  pose proof (prepareTasks_keeps ukCACHEDIR sha256_Sum build
                (Render (template build) [])) as Hk.
  specialize (fun tsks' => Hk tsks' ct h2).
  destruct (prepareTasks ukCACHEDIR sha256_Sum build _ ct h2)
    as [[[tsks|e] h3] ev3]; [|discriminate].
  unfold ret, outcomeOf. simpl. intros Heq. injection Heq as <-. simpl.
  destruct (Hk tsks eq_refl) as [Hn Hc]. repeat split; assumption.
Qed.

Lemma prepareBuild_keeps_package_witness :
  let b := Sim.build "root" ["echo hello"; "echo world"] [] in
  exists pkg,
    outcomeOf (prepareBuild Sim.ukGROUP Sim.ukCACHEDIR Sim.noValidation
                 Sim.TrimSpace Sim.Dir SHA256.Sum b []) = Ok pkg
    /\ reference pkg = template b
    /\ map name (tasks pkg) = map name (Render (template b) [])
    /\ map (fun t => map command (commands t)) (tasks pkg)
       = map (fun t => map command (commands t)) (Render (template b) []).
Proof.
  intros b. eexists. split; [reflexivity|].
  eapply (prepareBuild_keeps_package Sim.ukGROUP Sim.ukCACHEDIR
            Sim.noValidation Sim.TrimSpace Sim.Dir SHA256.Sum b []).
  reflexivity.
Defined.

(** While it executes a task, the driver itself sends nothing to the
    target and never resets the transport: all [buildTask] does is publish
    messages and run the remote task runner. *)
Theorem buildTask_only_publishes_and_runs {H : Type} (ukCACHEDIR : string)
    (runner_run : remoteTaskRunner H -> H -> option error * H * list (Event H))
    (Now : H -> Time) (build : Build H) (tsk : task) (h : H) :
  Forall (fun ev => match ev with
                    | EvCommand _ | EvExecRun _ | EvReset
                    | EvPublishError _ _ => False
                    | EvPublish _ _ | EvRemoteTask _ _ _ => True
                    end)
    (eventsOf (buildTask ukCACHEDIR runner_run Now build tsk h)).
Proof.
  unfold buildTask.
  generalize (Now h) as taskStarted. intros taskStarted.
  generalize (checksumDirOf ukCACHEDIR (name tsk)) as dir. intros dir.
  revert h. induction (commands tsk) as [|c cmds IH]; intros h;
    [constructor|].
  simpl. destruct (cached c).
  - unfold bind, emit. specialize (IH h).
    destruct (buildCommands runner_run build (name tsk) dir taskStarted cmds h)
      as [[res h1] evs].
    constructor; [exact I | exact IH].
  - unfold bind, emit, try, runRemote, fail.
    destruct (runner_run _ h) as [[[e|] h1] inner]; unfold eventsOf; simpl.
    + repeat constructor.
    + specialize (IH h1).
      destruct (buildCommands runner_run build (name tsk) dir taskStarted cmds h1)
        as [[res h2] evs].
      repeat (constructor; [exact I|]). exact IH.
Qed.

Example urknall_DryRun_is_DryRun_without_env :
  urknall_DryRun Sim.ukGROUP Sim.ukCACHEDIR Sim.noValidation Sim.TrimSpace
    Sim.Dir SHA256.Sum (Sim.scripted "root" (Some "host.example"))
    (Sim.templateOf ["echo hello"]) []
  = DryRun Sim.ukGROUP Sim.ukCACHEDIR Sim.noValidation Sim.TrimSpace Sim.Dir
      SHA256.Sum (Sim.build "root" ["echo hello"] []) [].
Proof. reflexivity. Qed.

Example urknall_Run_is_Run_without_env :
  urknall_Run Sim.ukGROUP Sim.ukCACHEDIR Sim.noValidation Sim.runner Sim.clock
    Sim.TrimSpace Sim.Dir SHA256.Sum (Sim.scripted "root" (Some "host.example"))
    (Sim.templateOf ["echo hello"]) []
  = Run Sim.ukGROUP Sim.ukCACHEDIR Sim.noValidation Sim.runner Sim.clock
      Sim.TrimSpace Sim.Dir SHA256.Sum (Sim.build "root" ["echo hello"] []) [].
Proof. reflexivity. Qed.
